(** * QHangups main widget: session lifecycle, event routing and tray gestures

    A shallow embedding of [qhangups/qhangups.py] (class [QHangupsMainWidget])
    and the properties of its session controller.

    The widget is a Python object mutated by Qt slots and by callbacks of the
    hangups client.  Each method is embedded as a computation in a state and
    exception monad over a [World]: the widget's attributes, the effects
    issued to collaborators (dialogs, the hangups client, asyncio), and the
    bookkeeping of object allocation. *)

From Stdlib Require Import List String Ascii Bool ZArith Lia.
Import ListNotations.
Open Scope string_scope.
Open Scope list_scope.

(** ** Collaborator objects *)

(** A conversation identifier, as carried by [conv_event.conversation_id]. *)
Definition ConvId := string.

(** The cookie dict returned by [hangups.auth.get_auth]. *)
Definition Cookies := list (string * string).

(** [hangups.Client(cookies)]: objects are told apart by their allocation
    number. *)
Record Client := mkClient {
  client_id : nat;
  client_cookies : Cookies
}.

(** The [initial_data] argument of [on_connect]. *)
Record Snapshot := mkSnapshot {
  self_entity : nat;
  entities : list nat;
  conversation_participants : list nat;
  conversation_states : list ConvId;
  sync_timestamp : Z
}.

(** [hangups.UserList(client, self_entity, entities, conversation_participants)] *)
Record UserList := mkUserList {
  ul_client : option Client;
  ul_self_entity : nat;
  ul_entities : list nat;
  ul_participants : list nat
}.

(** [hangups.ConversationList(client, conversation_states, user_list, sync_timestamp)] *)
Record ConversationList := mkConversationList {
  cl_id : nat;
  cl_client : option Client;
  cl_states : list ConvId;
  cl_user_list : UserList;
  cl_sync_timestamp : Z
}.

(** [Notifier(conv_list)] *)
Record Notifier := mkNotifier {
  nt_conv_list : ConversationList
}.

(** [QHangupsConversationsList(client, conv_list, parent)] and its
    visibility ([show], [hide], [isVisible]). *)
Record ConversationsDialog := mkConversationsDialog {
  cd_client : option Client;
  cd_conv_list : option ConversationList;
  cd_visible : bool
}.

(** [QHangupsConversations(client, conv_list, parent)]: one window holding a
    tab per conversation. *)
Record MessagesDialog := mkMessagesDialog {
  md_id : nat;
  md_client : option Client;
  md_conv_list : option ConversationList;
  md_tabs : list ConvId;
  md_current : option ConvId;
  md_visible : bool
}.

(** [QtGui.QSystemTrayIcon] activation reasons. *)
Inductive ActivationReason :=
| Unknown | Context | DoubleClick | Trigger | MiddleClick.

Definition reason_eqb (a b : ActivationReason) : bool :=
  match a, b with
  | Unknown, Unknown | Context, Context | DoubleClick, DoubleClick
  | Trigger, Trigger | MiddleClick, MiddleClick => true
  | _, _ => false
  end.

(** The two tray glyphs, [iconActive] and [iconDisabled]. *)
Inductive Icon := iconActive | iconDisabled.

(** Events of the conversation event stream; [on_event] tests
    [isinstance(conv_event, hangups.ChatMessageEvent)]. *)
Inductive ConversationEvent :=
| ChatMessageEvent (conversation_id : ConvId) (text : string)
| RenameEvent (conversation_id : ConvId) (new_name : string)
| MembershipChangeEvent (conversation_id : ConvId).

(** ** The widget *)

(** The attributes of [QHangupsMainWidget] that the methods read or write.
    The single-shot [icon_doubleclick_timer] is its expiry deadline while it
    is active and [None] while it is not. *)
Record Widget := mkWidget {
  cookies_path : string;
  hangups_running : bool;
  client : option Client;
  conv_list : option ConversationList;
  user_list : option UserList;
  notifier : option Notifier;
  conversations_dialog : option ConversationsDialog;
  messages_dialog : option MessagesDialog;
  icon_doubleclick_timer : option Z;
  trayIcon : Icon;
  startAction_enabled : bool;
  stopAction_enabled : bool
}.

(** What the widget does to the outside, in the order it does it. *)
Inductive Effect :=
| InputDialog (title : string)                 (* QInputDialog.getText *)
| WarningBox (title text : string)             (* QMessageBox.warning *)
| QuestionBox (title : string)                 (* QMessageBox.question *)
| NewClient (id : nat)                         (* hangups.Client(cookies) *)
| AddConnectObserver (id : nat)                (* client.on_connect.add_observer *)
| AsyncConnect (id : nat)                      (* asyncio.async(client.connect()) *)
| AsyncDisconnect (id : nat)                   (* asyncio.async(client.disconnect()) *)
| AddEventObserver (id : nat)                  (* conv_list.on_event.add_observer *)
| NewConversationsDialog
| NewMessagesDialog (id : nat)
| Stdout (text : string)                       (* print *)
| LoopStop.                                    (* loop.stop() *)

(** The slots whose invocations are counted. *)
Inductive Slot := Shangups_start | Shangups_stop | Sicon_doubleclick_timeout.

(** The module-level translators: the file each one has loaded. *)
Record Translators := mkTranslators {
  translator : string;
  qt_translator : string
}.

(** The widget together with the rest of the process it acts on:
    - [effects]: the effects issued so far, oldest first;
    - [calls]: the history of entries into the counted slots, oldest first;
    - [next_id]: the allocation counter of collaborator objects;
    - [awaiting_connect]: clients on which [on_connect] is registered and
      whose [connect()] is in flight, so that their callback may still fire;
    - [observed]: conversation lists on which [on_event] is registered;
    - [translators]: the module globals [translator] and [qt_translator]. *)
Record World := mkWorld {
  self : Widget;
  effects : list Effect;
  calls : list Slot;
  next_id : nat;
  awaiting_connect : list nat;
  observed : list nat;
  translators : Translators
}.

(** ** Exceptions and the monad of methods *)

Inductive Exn :=
| GoogleAuthError                (* hangups.GoogleAuthError *)
| AuthAbort                      (* the cancel signal of the credential bridge *)
| AttributeError (msg : string).

Inductive Res (A : Type) :=
| Ok (a : A)
| Raise (e : Exn).
Arguments Ok {A} a.
Arguments Raise {A} e.

(** A method body: it runs on a world, returns or raises, and leaves a world
    behind; what it wrote before raising stays written. *)
Definition M (A : Type) := World -> Res A * World.

Definition ret {A} (a : A) : M A := fun w => (Ok a, w).
Definition raise {A} (e : Exn) : M A := fun w => (Raise e, w).
Definition bind {A B} (m : M A) (k : A -> M B) : M B :=
  fun w => match m w with
           | (Ok a, w') => k a w'
           | (Raise e, w') => (Raise e, w')
           end.

Declare Scope py_scope.
Delimit Scope py_scope with py.
Notation "x <- m ;; k" := (bind m (fun x => k))
  (at level 100, m at next level, right associativity) : py_scope.
Notation "m ;;; k" := (bind m (fun _ => k))
  (at level 100, right associativity) : py_scope.
Open Scope py_scope.

(** [try: m except GoogleAuthError: h] *)
Definition try_except_GoogleAuthError {A} (m : M A) (h : M A) : M A :=
  fun w => match m w with
           | (Raise GoogleAuthError, w') => h w'
           | r => r
           end.

Definition get_world : M World := fun w => (Ok w, w).

Definition get_self : M Widget := fun w => (Ok (self w), w).

Definition modify_self (f : Widget -> Widget) : M unit :=
  fun w => (Ok tt, mkWorld (f (self w)) (effects w) (calls w) (next_id w)
                           (awaiting_connect w) (observed w) (translators w)).

Definition emit (e : Effect) : M unit :=
  fun w => (Ok tt, mkWorld (self w) (effects w ++ [e]) (calls w) (next_id w)
                           (awaiting_connect w) (observed w) (translators w)).

Definition enter (s : Slot) : M unit :=
  fun w => (Ok tt, mkWorld (self w) (effects w) (calls w ++ [s]) (next_id w)
                           (awaiting_connect w) (observed w) (translators w)).

Definition fresh : M nat :=
  fun w => (Ok (next_id w),
            mkWorld (self w) (effects w) (calls w) (S (next_id w))
                    (awaiting_connect w) (observed w) (translators w)).

Definition set_awaiting_connect (l : list nat) : M unit :=
  fun w => (Ok tt, mkWorld (self w) (effects w) (calls w) (next_id w)
                           l (observed w) (translators w)).

Definition set_observed (l : list nat) : M unit :=
  fun w => (Ok tt, mkWorld (self w) (effects w) (calls w) (next_id w)
                           (awaiting_connect w) l (translators w)).

Definition set_translators (t : Translators) : M unit :=
  fun w => (Ok tt, mkWorld (self w) (effects w) (calls w) (next_id w)
                           (awaiting_connect w) (observed w) t).

(** ** Attribute assignment *)

Definition set_hangups_running (v : bool) (s : Widget) : Widget :=
  mkWidget (cookies_path s) v (client s) (conv_list s) (user_list s)
           (notifier s) (conversations_dialog s) (messages_dialog s)
           (icon_doubleclick_timer s) (trayIcon s) (startAction_enabled s)
           (stopAction_enabled s).

Definition set_client (v : option Client) (s : Widget) : Widget :=
  mkWidget (cookies_path s) (hangups_running s) v (conv_list s) (user_list s)
           (notifier s) (conversations_dialog s) (messages_dialog s)
           (icon_doubleclick_timer s) (trayIcon s) (startAction_enabled s)
           (stopAction_enabled s).

Definition set_conv_list (v : option ConversationList) (s : Widget) : Widget :=
  mkWidget (cookies_path s) (hangups_running s) (client s) v (user_list s)
           (notifier s) (conversations_dialog s) (messages_dialog s)
           (icon_doubleclick_timer s) (trayIcon s) (startAction_enabled s)
           (stopAction_enabled s).

Definition set_user_list (v : option UserList) (s : Widget) : Widget :=
  mkWidget (cookies_path s) (hangups_running s) (client s) (conv_list s) v
           (notifier s) (conversations_dialog s) (messages_dialog s)
           (icon_doubleclick_timer s) (trayIcon s) (startAction_enabled s)
           (stopAction_enabled s).

Definition set_notifier (v : option Notifier) (s : Widget) : Widget :=
  mkWidget (cookies_path s) (hangups_running s) (client s) (conv_list s)
           (user_list s) v (conversations_dialog s) (messages_dialog s)
           (icon_doubleclick_timer s) (trayIcon s) (startAction_enabled s)
           (stopAction_enabled s).

Definition set_conversations_dialog (v : option ConversationsDialog)
    (s : Widget) : Widget :=
  mkWidget (cookies_path s) (hangups_running s) (client s) (conv_list s)
           (user_list s) (notifier s) v (messages_dialog s)
           (icon_doubleclick_timer s) (trayIcon s) (startAction_enabled s)
           (stopAction_enabled s).

Definition set_messages_dialog (v : option MessagesDialog)
    (s : Widget) : Widget :=
  mkWidget (cookies_path s) (hangups_running s) (client s) (conv_list s)
           (user_list s) (notifier s) (conversations_dialog s) v
           (icon_doubleclick_timer s) (trayIcon s) (startAction_enabled s)
           (stopAction_enabled s).

Definition set_icon_doubleclick_timer (v : option Z) (s : Widget) : Widget :=
  mkWidget (cookies_path s) (hangups_running s) (client s) (conv_list s)
           (user_list s) (notifier s) (conversations_dialog s)
           (messages_dialog s) v (trayIcon s) (startAction_enabled s)
           (stopAction_enabled s).

Definition set_trayIcon (v : Icon) (s : Widget) : Widget :=
  mkWidget (cookies_path s) (hangups_running s) (client s) (conv_list s)
           (user_list s) (notifier s) (conversations_dialog s)
           (messages_dialog s) (icon_doubleclick_timer s) v
           (startAction_enabled s) (stopAction_enabled s).

Definition set_startAction_enabled (v : bool) (s : Widget) : Widget :=
  mkWidget (cookies_path s) (hangups_running s) (client s) (conv_list s)
           (user_list s) (notifier s) (conversations_dialog s)
           (messages_dialog s) (icon_doubleclick_timer s) (trayIcon s) v
           (stopAction_enabled s).

Definition set_stopAction_enabled (v : bool) (s : Widget) : Widget :=
  mkWidget (cookies_path s) (hangups_running s) (client s) (conv_list s)
           (user_list s) (notifier s) (conversations_dialog s)
           (messages_dialog s) (icon_doubleclick_timer s) (trayIcon s)
           (startAction_enabled s) v.

(** ** The environment of one slot invocation *)

(** The verdict of the authentication service on an email and password. *)
Inductive Verdict :=
| CredentialsAccepted (cookies : Cookies)
| CredentialsNeedPin
| CredentialsRejected.

(** What the user and the services outside the process answer while a slot
    runs.  A modal [QInputDialog.getText] returns the pair [(text, ok)];
    [ok] is false when the user cancels. *)
Record Env := mkEnv {
  email_answer : string * bool;
  password_answer : string * bool;
  pin_answer : string * bool;
  check_credentials : string -> string -> Verdict;
  check_pin : string -> option Cookies;
  settings_language : option string;     (* QSettings().value("language") *)
  system_locale : string;                (* QLocale.system().name() *)
  isfile : string -> bool;               (* os.path.isfile in languages/ *)
  doubleClickInterval : Z                (* QtGui.qApp.doubleClickInterval() *)
}.

Section Methods.

Variable env : Env.

(** [get_credentials]: ask for the email, then for the password; [None] is
    the [False] that the method returns when either dialog is cancelled. *)
Definition get_credentials : M (option (string * string)) :=
  emit (InputDialog "QHangups - Email") ;;;
  let '(email, ok) := email_answer env in
  if ok then
    emit (InputDialog "QHangups - Password") ;;;
    let '(password, ok) := password_answer env in
    if ok then ret (Some (email, password))
    else ret None
  else ret None.

(** [get_pin]: ask for the second factor; [None] is the [False] returned on
    cancel. *)
Definition get_pin : M (option string) :=
  emit (InputDialog "QHangups - PIN") ;;;
  let '(pin, ok) := pin_answer env in
  if ok then ret (Some pin) else ret None.

(** Modelled from the spec: [hangups.auth.get_auth], which belongs to the
    hangups library and is not part of this source file.  The spec (4.4, 6)
    gives it as a two-step challenge: it requests email and password through
    the credential callback, requests a PIN through the PIN callback only if
    the authentication service asks for one, fails with the authentication
    error on invalid credentials, and propagates a cancelled prompt as an
    abort signal that is not the authentication error. *)
Definition get_auth (get_credentials_f : M (option (string * string)))
    (get_pin_f : M (option string)) (cookies_filename : string) : M Cookies :=
  credentials <- get_credentials_f ;;
  match credentials with
  | None => raise AuthAbort
  | Some (email, password) =>
      match check_credentials env email password with
      | CredentialsAccepted cookies => ret cookies
      | CredentialsRejected => raise GoogleAuthError
      | CredentialsNeedPin =>
          pin <- get_pin_f ;;
          match pin with
          | None => raise AuthAbort
          | Some p =>
              match check_pin env p with
              | Some cookies => ret cookies
              | None => raise GoogleAuthError
              end
          end
      end
  end.

(** [login]: the cookies, or [None] for the [False] returned after the
    warning. *)
Definition login (cookies_path : string) : M (option Cookies) :=
  try_except_GoogleAuthError
    (cookies <- get_auth get_credentials get_pin cookies_path ;;
     ret (Some cookies))
    (emit (WarningBox "QHangups - Warning" "Google login failed!") ;;;
     ret None).

(** Python truth of [login]'s result: [False] and the empty dict are false. *)
Definition truthy (cookies : option Cookies) : bool :=
  match cookies with
  | Some (_ :: _) => true
  | _ => false
  end.

(** [update_status] *)
Definition update_status : M unit :=
  s <- get_self ;;
  if hangups_running s then
    modify_self (set_trayIcon iconActive) ;;;
    modify_self (set_startAction_enabled false) ;;;
    modify_self (set_stopAction_enabled true)
  else
    modify_self (set_trayIcon iconDisabled) ;;;
    modify_self (set_startAction_enabled true) ;;;
    modify_self (set_stopAction_enabled false).

(** The dict inside a truthy result of [login]. *)
Definition jar (cookies : option Cookies) : Cookies :=
  match cookies with
  | Some c => c
  | None => []
  end.

(** [hangups_start] *)
Definition hangups_start : M unit :=
  enter Shangups_start ;;;
  s <- get_self ;;
  cookies <- login (cookies_path s) ;;
  if truthy cookies then
    id <- fresh ;;
    emit (NewClient id) ;;;
    modify_self (set_client (Some (mkClient id (jar cookies)))) ;;;
    emit (AddConnectObserver id) ;;;
    emit (AsyncConnect id) ;;;
    w <- get_world ;;
    set_awaiting_connect (awaiting_connect w ++ [id]) ;;;
    modify_self (set_hangups_running true) ;;;
    update_status
  else ret tt.

(** [self.client.disconnect()]: attribute lookup on [None] raises. *)
Definition client_disconnect : M unit :=
  s <- get_self ;;
  match client s with
  | None =>
      raise (AttributeError
               "'NoneType' object has no attribute 'disconnect'")
  | Some c => emit (AsyncDisconnect (client_id c))
  end.

(** [hangups_stop] *)
Definition hangups_stop : M unit :=
  enter Shangups_stop ;;;
  client_disconnect ;;;
  modify_self (set_conv_list None) ;;;
  modify_self (set_user_list None) ;;;
  modify_self (set_notifier None) ;;;
  modify_self (set_conversations_dialog None) ;;;
  modify_self (set_messages_dialog None) ;;;
  modify_self (set_hangups_running false) ;;;
  modify_self (set_client None) ;;;
  update_status.

(** [str.split("_")[0]]: the text before the first underscore. *)
Fixpoint split_underscore_0 (s : string) : string :=
  match s with
  | EmptyString => EmptyString
  | String c rest =>
      if Ascii.eqb c "_"%char then EmptyString
      else String c (split_underscore_0 rest)
  end.

(** [set_language]: the language of the settings store, or the one of the
    system locale when that value is missing or empty; the translators load
    its files when the widget's own translation file exists, and are emptied
    otherwise. *)
Definition set_language : M unit :=
  let language :=
    match settings_language env with
    | Some (String c rest) => String c rest
    | _ => split_underscore_0 (system_locale env)
    end in
  let lang_file := ("qhangups_" ++ language ++ ".qm")%string in
  let qt_lang_file := ("qt_" ++ language ++ ".qm")%string in
  if isfile env lang_file then
    set_translators (mkTranslators lang_file qt_lang_file)
  else
    set_translators (mkTranslators "" "").

(** [settings]: [accepted] is the result of [dialog.exec_()]. *)
Definition settings (accepted : bool) : M unit :=
  if accepted then
    set_language ;;;
    s <- get_self ;;
    if hangups_running s then
      hangups_stop ;;;
      hangups_start
    else ret tt
  else ret tt.

(** [icon_activated]; [now] is the time at which the slot runs. *)
Definition icon_activated (reason : ActivationReason) (now : Z) : M unit :=
  if reason_eqb reason Trigger then
    s <- get_self ;;
    match icon_doubleclick_timer s with
    | Some _ =>
        modify_self (set_icon_doubleclick_timer None) ;;;
        s <- get_self ;;
        if hangups_running s then hangups_stop else hangups_start
    | None =>
        modify_self
          (set_icon_doubleclick_timer (Some (now + doubleClickInterval env)%Z))
    end
  else ret tt.

(** [hide()] and [show()] of the conversations dialog. *)
Definition set_cd_visible (v : bool) (d : ConversationsDialog)
    : ConversationsDialog :=
  mkConversationsDialog (cd_client d) (cd_conv_list d) v.

(** [icon_doubleclick_timeout] *)
Definition icon_doubleclick_timeout : M unit :=
  enter Sicon_doubleclick_timeout ;;;
  s <- get_self ;;
  match conversations_dialog s with
  | Some d =>
      if cd_visible d then
        modify_self (set_conversations_dialog (Some (set_cd_visible false d)))
      else
        modify_self (set_conversations_dialog (Some (set_cd_visible true d)))
  | None => ret tt
  end.

(** [quit]; [reply_yes] is whether the question box was answered Yes.  The
    early [return] skips both [hangups_stop] and [loop.stop()]. *)
Definition quit (force : bool) (reply_yes : bool) : M unit :=
  s <- get_self ;;
  if hangups_running s then
    if negb force then
      emit (QuestionBox "QHangups - Quit") ;;;
      if negb reply_yes then ret tt
      else (hangups_stop ;;; emit LoopStop)
    else (hangups_stop ;;; emit LoopStop)
  else emit LoopStop.

End Methods.

(** ** Callbacks of the session and the message view *)

(** Modelled from the spec: [QHangupsConversations.set_conv_tab], of
    [qhangups/conversations.py], which is not among the sources.  The spec
    (4.2) gives the message view as a single surface keyed by tab: the tab of
    the conversation is created on first reference and kept, and the view
    targets it when [switch] is set. *)
Definition set_conv_tab (conv_id : ConvId) (switch : bool)
    (d : MessagesDialog) : MessagesDialog :=
  let tabs :=
    if existsb (String.eqb conv_id) (md_tabs d) then md_tabs d
    else md_tabs d ++ [conv_id] in
  mkMessagesDialog (md_id d) (md_client d) (md_conv_list d) tabs
                   (if switch then Some conv_id else md_current d)
                   (md_visible d).

(** [show()] of the message view. *)
Definition md_show (d : MessagesDialog) : MessagesDialog :=
  mkMessagesDialog (md_id d) (md_client d) (md_conv_list d) (md_tabs d)
                   (md_current d) true.

(** A method call on [self.messages_dialog]. *)
Definition on_messages_dialog (attr : string)
    (f : MessagesDialog -> MessagesDialog) : M unit :=
  s <- get_self ;;
  match messages_dialog s with
  | Some d => modify_self (set_messages_dialog (Some (f d)))
  | None =>
      raise (AttributeError
               ("'NoneType' object has no attribute '" ++ attr ++ "'")%string)
  end.

(** [if not self.messages_dialog: self.messages_dialog =
    QHangupsConversations(self.client, self.conv_list, self)] *)
Definition ensure_messages_dialog : M unit :=
  s <- get_self ;;
  match messages_dialog s with
  | Some _ => ret tt
  | None =>
      id <- fresh ;;
      emit (NewMessagesDialog id) ;;;
      modify_self
        (set_messages_dialog
           (Some (mkMessagesDialog id (client s) (conv_list s) [] None false)))
  end.

(** [open_messages_dialog] *)
Definition open_messages_dialog (conv_id : ConvId) (switch : bool) : M unit :=
  ensure_messages_dialog ;;;
  on_messages_dialog "set_conv_tab" (set_conv_tab conv_id switch) ;;;
  on_messages_dialog "show" md_show.

(** [hangups.UserList(client, self_entity, entities,
    conversation_participants)]: the constructor of the hangups library
    subscribes the new list to the state updates of [client], so that on a
    client that is [None] it raises [AttributeError] and no list is
    built. *)
Definition new_UserList (c : option Client) (initial_data : Snapshot)
    : M UserList :=
  match c with
  | None =>
      raise (AttributeError
               "'NoneType' object has no attribute 'on_state_update'")
  | Some _ =>
      ret (mkUserList c (self_entity initial_data) (entities initial_data)
                      (conversation_participants initial_data))
  end.

(** [on_connect]: when [self.client] is [None], the first constructor
    raises before any attribute is assigned. *)
Definition on_connect (initial_data : Snapshot) : M unit :=
  emit (Stdout "Connected") ;;;
  s <- get_self ;;
  users <- new_UserList (client s) initial_data ;;
  modify_self (set_user_list (Some users)) ;;;
  id <- fresh ;;
  let convs :=
    mkConversationList id (client s) (conversation_states initial_data)
                       users (sync_timestamp initial_data) in
  modify_self (set_conv_list (Some convs)) ;;;
  emit (AddEventObserver id) ;;;
  w <- get_world ;;
  set_observed (observed w ++ [id]) ;;;
  modify_self (set_notifier (Some (mkNotifier convs))) ;;;
  emit NewConversationsDialog ;;;
  modify_self
    (set_conversations_dialog
       (Some (mkConversationsDialog (client s) (Some convs) false))) ;;;
  modify_self
    (set_conversations_dialog
       (Some (mkConversationsDialog (client s) (Some convs) true))).

(** [on_event] *)
Definition on_event (conv_event : ConversationEvent) : M unit :=
  match conv_event with
  | ChatMessageEvent conversation_id _ =>
      ensure_messages_dialog ;;;
      on_messages_dialog "set_conv_tab" (set_conv_tab conversation_id true) ;;;
      on_messages_dialog "show" md_show
  | _ => ret tt
  end.

(** ** The event loop *)

(** What the scheduler can hand to the widget: the menu actions, the tray
    icon, a termination signal, the callbacks of the hangups client and a
    conversation opened from the conversation list. *)
Inductive Input :=
| StartAction
| StopAction
| SettingsAction (accepted : bool)
| QuitAction (reply_yes : bool)
| TerminationSignal
| IconActivated (reason : ActivationReason)
| ConnectCallback (id : nat) (initial_data : Snapshot)
| EventCallback (id : nat) (conv_event : ConversationEvent)
| OpenConversation (conv_id : ConvId) (switch : bool).

(** The world a slot leaves behind; an exception that escapes a slot is
    reported by the binding and the loop goes on. *)
Definition exec {A} (m : M A) (w : World) : World := snd (m w).

(** The single-shot timer fires once the loop reaches its deadline. *)
Definition fire_timer (now : Z) (w : World) : World :=
  match icon_doubleclick_timer (self w) with
  | Some deadline =>
      if (deadline <=? now)%Z then
        exec (modify_self (set_icon_doubleclick_timer None) ;;;
              icon_doubleclick_timeout) w
      else w
  | None => w
  end.

Definition remove_id (id : nat) (l : list nat) : list nat :=
  filter (fun x => negb (Nat.eqb x id)) l.

(** One input of the loop at time [now].  A disabled action cannot be
    triggered; [on_connect] fires once, for a client that registered it and
    started to connect; [on_event] fires for a conversation list that
    registered it. *)
Definition dispatch (env : Env) (now : Z) (i : Input) (w : World) : World :=
  match i with
  | StartAction =>
      if startAction_enabled (self w) then exec (hangups_start env) w else w
  | StopAction =>
      if stopAction_enabled (self w) then exec hangups_stop w else w
  | SettingsAction accepted => exec (settings env accepted) w
  | QuitAction reply_yes => exec (quit false reply_yes) w
  | TerminationSignal => exec (quit true false) w
  | IconActivated reason => exec (icon_activated env reason now) w
  | ConnectCallback id initial_data =>
      if existsb (Nat.eqb id) (awaiting_connect w) then
        exec (w' <- get_world ;;
              set_awaiting_connect (remove_id id (awaiting_connect w')) ;;;
              on_connect initial_data) w
      else w
  | EventCallback id conv_event =>
      if existsb (Nat.eqb id) (observed w) then exec (on_event conv_event) w
      else w
  | OpenConversation conv_id switch =>
      exec (open_messages_dialog conv_id switch) w
  end.

Definition deliver (env : Env) (now : Z) (i : Input) (w : World) : World :=
  dispatch env now i (fire_timer now w).

(** A run of the loop: inputs with the environment and the time of each. *)
Fixpoint run (l : list (Env * Z * Input)) (w : World) : World :=
  match l with
  | [] => w
  | (env, now, i) :: rest => run rest (deliver env now i w)
  end.

(** The widget after [__init__]. *)
Definition init_widget (cookies : string) : Widget :=
  mkWidget cookies false None None None None None None None
           iconDisabled true false.

(** The world after [__init__]: the constructor first runs [set_language],
    in the environment of that moment, on the module's empty translators,
    and then sets the attributes. *)
Definition init_world (env : Env) (cookies : string) : World :=
  exec (set_language env)
       (mkWorld (init_widget cookies) [] [] 0 [] [] (mkTranslators "" "")).

(** A world is reachable when some run of the loop from an initial world
    ends in it. *)
Definition reachable (w : World) : Prop :=
  exists env cookies l, w = run l (init_world env cookies).

(** ** Session status and the shape of the session handles *)

Inductive Status := Disconnected | Connecting | Connected.

Definition present {A} (o : option A) : bool :=
  match o with
  | Some _ => true
  | None => false
  end.

(** The widget keeps no status attribute: the session is Disconnected while
    [hangups_running] is false, and a running session is Connected once
    [on_connect] has built the conversation collection. *)
Definition status (s : Widget) : Status :=
  if hangups_running s then
    if present (conv_list s) then Connected else Connecting
  else Disconnected.

(** The session invariant of the data model: all four handles with
    Connected, none with Disconnected, the client alone with Connecting. *)
Definition session_invariant (s : Widget) : bool :=
  match status s with
  | Connected =>
      present (client s) && present (conv_list s) && present (user_list s)
      && present (notifier s)
  | Connecting =>
      present (client s) && negb (present (conv_list s))
      && negb (present (user_list s)) && negb (present (notifier s))
  | Disconnected =>
      negb (present (client s)) && negb (present (conv_list s))
      && negb (present (user_list s)) && negb (present (notifier s))
  end.

(** The four session handles and the conversation views are all absent. *)
Definition torn_down (s : Widget) : Prop :=
  client s = None /\ conv_list s = None /\ user_list s = None
  /\ notifier s = None /\ conversations_dialog s = None
  /\ messages_dialog s = None.

(** The widget as [hangups_stop] leaves it. *)
Definition stopped (s : Widget) : Widget :=
  mkWidget (cookies_path s) false None None None None None None
           (icon_doubleclick_timer s) iconDisabled true false.

(** The widget as a successful [hangups_start] leaves it. *)
Definition started (id : nat) (cookies : Cookies) (s : Widget) : Widget :=
  mkWidget (cookies_path s) true (Some (mkClient id cookies)) (conv_list s)
           (user_list s) (notifier s) (conversations_dialog s)
           (messages_dialog s) (icon_doubleclick_timer s) iconActive false
           true.

(** Effects that build or drop a session: client allocation, observer
    registration, connect and disconnect. *)
Definition session_effect (e : Effect) : bool :=
  match e with
  | NewClient _ | AddConnectObserver _ | AsyncConnect _ | AsyncDisconnect _
  | AddEventObserver _ => true
  | _ => false
  end.

Definition is_warning (e : Effect) : bool :=
  match e with
  | WarningBox _ _ => true
  | _ => false
  end.

Definition is_input_dialog (e : Effect) : bool :=
  match e with
  | InputDialog _ => true
  | _ => false
  end.

(** Whether the login of [hangups_start] ends with cookies that are true in
    the sense of [if cookies:]. *)
Definition obtains_cookies (env : Env) (w : World) : bool :=
  match fst (login env (cookies_path (self w)) w) with
  | Ok cookies => truthy cookies
  | Raise _ => false
  end.

(** The world with further effects, and nothing else changed. *)
Definition add_effects (l : list Effect) (w : World) : World :=
  mkWorld (self w) (effects w ++ l) (calls w) (next_id w)
          (awaiting_connect w) (observed w) (translators w).

(** The world with further slot entries, and nothing else changed. *)
Definition add_calls (c : list Slot) (w : World) : World :=
  mkWorld (self w) (effects w) (calls w ++ c) (next_id w)
          (awaiting_connect w) (observed w) (translators w).

(** The user cancels a prompt of the attempt: the email dialog, the
    password dialog, or the PIN dialog when the service asks for a PIN. *)
Definition cancels (env : Env) : Prop :=
  snd (email_answer env) = false
  \/ (snd (email_answer env) = true /\ snd (password_answer env) = false)
  \/ (snd (email_answer env) = true /\ snd (password_answer env) = true
      /\ check_credentials env (fst (email_answer env))
                           (fst (password_answer env)) = CredentialsNeedPin
      /\ snd (pin_answer env) = false).

(** The user answers every prompt and the service rejects the credentials
    or the PIN. *)
Definition wrong_credentials (env : Env) : Prop :=
  snd (email_answer env) = true /\ snd (password_answer env) = true
  /\ (check_credentials env (fst (email_answer env))
                        (fst (password_answer env)) = CredentialsRejected
      \/ (check_credentials env (fst (email_answer env))
                            (fst (password_answer env)) = CredentialsNeedPin
          /\ snd (pin_answer env) = true
          /\ check_pin env (fst (pin_answer env)) = None)).

(** ** Concrete environments and worlds *)

Definition alice : Env :=
  mkEnv ("alice@example.org", true) ("secret", true) ("123456", true)
        (fun _ _ => CredentialsAccepted [("SID", "abc")]) (fun _ => None)
        None "en_US" (fun _ => false) 400.

Definition alice_cancels : Env :=
  mkEnv ("alice@example.org", true) ("", false) ("", false)
        (fun _ _ => CredentialsAccepted [("SID", "abc")]) (fun _ => None)
        None "en_US" (fun _ => false) 400.

Definition mallory : Env :=
  mkEnv ("mallory@example.org", true) ("guess", true) ("", false)
        (fun _ _ => CredentialsRejected) (fun _ => None)
        None "en_US" (fun _ => false) 400.

Definition snapshot0 : Snapshot := mkSnapshot 1 [1; 2] [1; 2] ["C1"] 0.

(** Connected: the Connect action, then the connect callback of client 0. *)
Definition connected_world : World :=
  run [(alice, 0%Z, StartAction);
       (alice, 50%Z, ConnectCallback 0 snapshot0)] (init_world alice "cookies.json").

(** Connect, Disconnect while the connect is in flight, and the connect
    callback of client 0 after that. *)
Definition late_callback_world : World :=
  run [(alice, 0%Z, StartAction);
       (alice, 10%Z, StopAction);
       (alice, 50%Z, ConnectCallback 0 snapshot0)] (init_world alice "cookies.json").

(** The world with the double-click timer armed until [deadline]. *)
Definition arm (deadline : Z) (w : World) : World :=
  mkWorld (set_icon_doubleclick_timer (Some deadline) (self w)) (effects w)
          (calls w) (next_id w) (awaiting_connect w) (observed w)
          (translators w).

(** The conversations dialog after a visibility toggle: hidden if it was
    visible, shown if it was hidden, and still absent if it was absent. *)
Definition toggle_visibility (d : option ConversationsDialog)
    : option ConversationsDialog :=
  match d with
  | Some d => Some (set_cd_visible (negb (cd_visible d)) d)
  | None => None
  end.

(** The connection toggle of the tray icon: [hangups_stop] when the session
    runs, [hangups_start] otherwise. *)
Definition toggle_connection (env : Env) (w : World) : M unit :=
  if hangups_running (self w) then hangups_stop else hangups_start env.

Definition toggle_slot (w : World) : Slot :=
  if hangups_running (self w) then Shangups_stop else Shangups_start.

Definition is_chat_message (conv_event : ConversationEvent) : bool :=
  match conv_event with
  | ChatMessageEvent _ _ => true
  | _ => false
  end.

Definition is_disconnect (e : Effect) : bool :=
  match e with
  | AsyncDisconnect _ => true
  | _ => false
  end.

(** An input is timely when it is not the connect callback of a client
    other than the one in [self.client]: the callback of a client that
    [hangups_stop] has already dropped is late. *)
Definition timely_input (w : World) (i : Input) : bool :=
  match i with
  | ConnectCallback id _ =>
      match client (self w) with
      | Some c => Nat.eqb (client_id c) id
      | None => false
      end
  | _ => true
  end.

(** A run in which every input is timely when it is delivered. *)
Fixpoint timely (l : list (Env * Z * Input)) (w : World) : bool :=
  match l with
  | [] => true
  | (env, now, i) :: rest =>
      timely_input w i && timely rest (deliver env now i w)
  end.

(** The session invariant together with the menu state that
    [update_status] keeps in step with [hangups_running]. *)
Definition consistent (s : Widget) : Prop :=
  session_invariant s = true
  /\ startAction_enabled s = negb (hangups_running s)
  /\ stopAction_enabled s = hangups_running s.

(** The part of the widget that the session invariant and the menu state
    read. *)
Definition session_part (s : Widget) :=
  (hangups_running s, client s, conv_list s, user_list s, notifier s,
   startAction_enabled s, stopAction_enabled s).

(** The widget after a call of [hangups_stop]: released when there was a
    client to disconnect, as it was when the call raised. *)
Definition after_stop (s : Widget) : Widget :=
  if present (client s) then stopped s else s.

(** The attributes that [update_status] keeps in step: the running flag
    and the client, the two menu actions and the tray glyph. *)
Definition status_part (s : Widget) :=
  (hangups_running s, client s, startAction_enabled s, stopAction_enabled s,
   trayIcon s).

(** The state of the menu and of the tray icon that [update_status] sets for
    the value of [hangups_running], the flag itself being set exactly when
    there is a client. *)
Definition in_step (s : Widget) : Prop :=
  hangups_running s = present (client s)
  /\ startAction_enabled s = negb (hangups_running s)
  /\ stopAction_enabled s = hangups_running s
  /\ trayIcon s = (if hangups_running s then iconActive else iconDisabled).

(** The exception is the [AttributeError] of a method call on [None]. *)
Definition is_attribute_error {A} (r : Res A) : bool :=
  match r with
  | Raise (AttributeError _) => true
  | _ => false
  end.

Definition is_loop_stop (e : Effect) : bool :=
  match e with
  | LoopStop => true
  | _ => false
  end.

Definition underscore : ascii := "_"%char.

(** The widget a slot leaves behind, as far as [update_status] is
    concerned: untouched, or the one of a completed [hangups_stop], or the
    one of a completed [hangups_start]. *)
Definition status_step (s s' : Widget) : Prop :=
  status_part s' = status_part s
  \/ (exists s0, s' = stopped s0)
  \/ (exists n cookies s0, s' = started n cookies s0).

(** ** Frame lemmas *)

Lemma hangups_stop_present (w : World) (c : Client) :
  client (self w) = Some c ->
  hangups_stop w =
  (Ok tt,
   mkWorld (stopped (self w)) (effects w ++ [AsyncDisconnect (client_id c)])
           (calls w ++ [Shangups_stop]) (next_id w) (awaiting_connect w)
           (observed w) (translators w)).
Proof.
  intros H. unfold hangups_stop, client_disconnect, bind, enter, get_self.
  cbn. rewrite H. reflexivity.
Qed.

Lemma hangups_stop_absent (w : World) :
  client (self w) = None ->
  hangups_stop w =
  (Raise (AttributeError "'NoneType' object has no attribute 'disconnect'"),
   add_calls [Shangups_stop] w).
Proof.
  intros H. unfold hangups_stop, client_disconnect, bind, enter, get_self.
  cbn. rewrite H. reflexivity.
Qed.

(** The dialogs of one login attempt. *)
Ltac login_cases env :=
  unfold login, try_except_GoogleAuthError, get_auth, get_credentials,
    get_pin, bind, emit, ret, raise;
  cbn;
  destruct (email_answer env) as [?email [|]]; cbn;
  [ destruct (password_answer env) as [?password [|]]; cbn;
    [ match goal with
      | |- context [check_credentials env ?e ?p] =>
          destruct (check_credentials env e p) eqn:?; cbn
      end;
      [ | destruct (pin_answer env) as [?pin [|]]; cbn;
          [ match goal with
            | |- context [check_pin env ?p] =>
                destruct (check_pin env p) eqn:?; cbn
            end | ] | ] | ] | ].

(** [login] only opens dialogs: it leaves the widget, the call history, the
    allocation counter and the registrations alone, and what it adds to the
    effects builds no session. *)
Lemma login_frame (env : Env) (path : string) (w : World) :
  exists l,
    snd (login env path w) = add_effects l w
    /\ forallb (fun e => negb (session_effect e)) l = true.
Proof.
  login_cases env; unfold add_effects; cbn; rewrite <- ?app_assoc; cbn;
    eexists; (split; [reflexivity | reflexivity]).
Qed.

Lemma hangups_start_unfold (env : Env) (w : World) :
  hangups_start env w =
  match login env (cookies_path (self w)) (add_calls [Shangups_start] w) with
  | (Ok cookies, w1) =>
      if truthy cookies then
        (Ok tt,
         mkWorld (started (next_id w1) (jar cookies) (self w1))
                 (effects w1 ++ [NewClient (next_id w1);
                                 AddConnectObserver (next_id w1);
                                 AsyncConnect (next_id w1)])
                 (calls w1) (S (next_id w1))
                 (awaiting_connect w1 ++ [next_id w1]) (observed w1)
                 (translators w1))
      else (Ok tt, w1)
  | (Raise e, w1) => (Raise e, w1)
  end.
Proof.
  unfold hangups_start, bind, enter, get_self. cbn.
  change (mkWorld (self w) (effects w) (calls w ++ [Shangups_start])
                  (next_id w) (awaiting_connect w) (observed w)
                  (translators w))
    with (add_calls [Shangups_start] w).
  destruct (login env (cookies_path (self w)) (add_calls [Shangups_start] w))
    as [[cookies | e] w1]; [ | reflexivity].
  destruct (truthy cookies); [ | reflexivity].
  cbn. rewrite <- !app_assoc. reflexivity.
Qed.

(** The two ways [hangups_start] can end: without cookies it has only
    opened dialogs; with cookies it has allocated the next client, put it in
    [self.client], registered [on_connect], scheduled the connect and set
    [hangups_running]. *)
Lemma hangups_start_cases (env : Env) (w : World) :
  exists l,
    forallb (fun e => negb (session_effect e)) l = true
    /\ ((exists r,
           hangups_start env w
           = (r, add_effects l (add_calls [Shangups_start] w)))
        \/ (exists cookies,
              hangups_start env w =
              (Ok tt,
               mkWorld (started (next_id w) cookies (self w))
                       (effects w ++ l ++ [NewClient (next_id w);
                                           AddConnectObserver (next_id w);
                                           AsyncConnect (next_id w)])
                       (calls w ++ [Shangups_start]) (S (next_id w))
                       (awaiting_connect w ++ [next_id w]) (observed w)
                       (translators w)))).
Proof.
  rewrite hangups_start_unfold.
  destruct (login_frame env (cookies_path (self w))
                        (add_calls [Shangups_start] w)) as (l & Hw & Hl).
  exists l. split; [exact Hl | ].
  destruct (login env (cookies_path (self w)) (add_calls [Shangups_start] w))
    as [[cookies | e] w1]; cbn in Hw; subst w1.
  - destruct (truthy cookies).
    + right. exists (jar cookies). cbn. rewrite <- app_assoc. reflexivity.
    + left. eexists. reflexivity.
  - left. eexists. reflexivity.
Qed.

(** What [login] returns does not depend on the world it runs in. *)
Lemma login_result_indep (env : Env) (path path' : string) (w w' : World) :
  fst (login env path w) = fst (login env path' w').
Proof.
  login_cases env; reflexivity.
Qed.

Lemma login_cancelled (env : Env) (path : string) (w : World) :
  cancels env ->
  exists l,
    login env path w = (Raise AuthAbort, add_effects l w)
    /\ forallb is_input_dialog l = true.
Proof.
  unfold cancels. intros H.
  unfold login, try_except_GoogleAuthError, get_auth, get_credentials,
    get_pin, bind, emit, ret, raise.
  destruct (email_answer env) as [e oke].
  destruct (password_answer env) as [p okp].
  destruct (pin_answer env) as [q okq]. cbn in *.
  destruct H as [-> | [[-> ->] | (-> & -> & Hc & ->)]]; cbn;
    try rewrite Hc; cbn; unfold add_effects; cbn; rewrite <- ?app_assoc;
    cbn; eexists; (split; [reflexivity | reflexivity]).
Qed.

Lemma login_rejected (env : Env) (path : string) (w : World) :
  wrong_credentials env ->
  exists l,
    login env path w
    = (Ok None,
       add_effects
         (l ++ [WarningBox "QHangups - Warning" "Google login failed!"]) w)
    /\ forallb is_input_dialog l = true.
Proof.
  unfold wrong_credentials. intros H.
  unfold login, try_except_GoogleAuthError, get_auth, get_credentials,
    get_pin, bind, emit, ret, raise.
  destruct (email_answer env) as [e oke].
  destruct (password_answer env) as [p okp].
  destruct (pin_answer env) as [q okq]. cbn in *.
  destruct H as (-> & -> & [Hc | (Hc & -> & Hp)]); cbn; rewrite Hc; cbn;
    try rewrite Hp; cbn; unfold add_effects; cbn; rewrite <- ?app_assoc; cbn.
  - exists [InputDialog "QHangups - Email"; InputDialog "QHangups - Password"].
    split; reflexivity.
  - exists [InputDialog "QHangups - Email"; InputDialog "QHangups - Password";
            InputDialog "QHangups - PIN"].
    split; reflexivity.
Qed.

Lemma filter_session_effect_frame (l : list Effect) :
  forallb (fun e => negb (session_effect e)) l = true ->
  filter session_effect l = [].
Proof.
  induction l as [| e l IH]; cbn; [reflexivity | ].
  destruct (session_effect e); cbn; [discriminate | exact IH].
Qed.

(** ** The properties of the session controller *)

(** C1 (as stated, refuted): in the Connected world, where [hangups_running]
    is true, [hangups_start] with accepted credentials changes the widget,
    allocates client 2 and registers [on_connect] on it. *)
Lemma hangups_start_while_running_not_noop :
  hangups_running (self connected_world) = true
  /\ self (exec (hangups_start alice) connected_world) <> self connected_world
  /\ In (NewClient 2) (effects (exec (hangups_start alice) connected_world))
  /\ ~ In (NewClient 2) (effects connected_world)
  /\ In (AddConnectObserver 2)
        (effects (exec (hangups_start alice) connected_world))
  /\ ~ In (AddConnectObserver 2) (effects connected_world).
Proof.
  vm_compute. repeat split; try discriminate; try tauto.
  - intros H; repeat destruct H as [H | H]; discriminate || exact H.
  - intros H; repeat destruct H as [H | H]; discriminate || exact H.
Qed.

(** C1 (amended): [hangups_start] has no guard on [hangups_running].  Called
    while the session is running it runs [login] as from Disconnected: when
    the login yields no cookies, the widget is unchanged, no client is
    allocated and no observer registered; when it yields cookies, a newly
    allocated client replaces [self.client], [on_connect] is registered on
    it and its connect scheduled, [hangups_running] stays true and the three
    collections are left as they were. *)
Theorem hangups_start_while_running (env : Env) (w : World) :
  hangups_running (self w) = true ->
  let w' := exec (hangups_start env) w in
  if obtains_cookies env w then
    (exists cookies,
        client (self w') = Some (mkClient (next_id w) cookies))
    /\ hangups_running (self w') = true
    /\ conv_list (self w') = conv_list (self w)
    /\ user_list (self w') = user_list (self w)
    /\ notifier (self w') = notifier (self w)
    /\ filter session_effect (effects w')
       = filter session_effect (effects w)
         ++ [NewClient (next_id w); AddConnectObserver (next_id w);
             AsyncConnect (next_id w)]
    /\ next_id w' = S (next_id w)
    /\ awaiting_connect w' = awaiting_connect w ++ [next_id w]
  else
    self w' = self w
    /\ filter session_effect (effects w') = filter session_effect (effects w)
    /\ next_id w' = next_id w
    /\ awaiting_connect w' = awaiting_connect w.
Proof.
  intros Hrun w'. subst w'. unfold exec, obtains_cookies.
  rewrite (login_result_indep env (cookies_path (self w))
             (cookies_path (self w)) w (add_calls [Shangups_start] w)).
  rewrite hangups_start_unfold.
  destruct (login_frame env (cookies_path (self w))
                        (add_calls [Shangups_start] w)) as (l & Hw & Hl).
  destruct (login env (cookies_path (self w)) (add_calls [Shangups_start] w))
    as [[cookies | e] w1]; cbn in Hw; subst w1; cbn.
  - destruct (truthy cookies); cbn.
    + repeat split; try reflexivity.
      * eexists; reflexivity.
      * rewrite !filter_app, (filter_session_effect_frame l Hl).
        cbn. now rewrite app_nil_r.
    + repeat split.
      rewrite filter_app, (filter_session_effect_frame l Hl).
      now rewrite app_nil_r.
  - repeat split.
    rewrite filter_app, (filter_session_effect_frame l Hl).
    now rewrite app_nil_r.
Qed.

Lemma hangups_start_while_running_witness :
  hangups_running (self connected_world) = true
  /\ hangups_running (self (exec (hangups_start alice) connected_world))
     = true
  /\ next_id (exec (hangups_start alice) connected_world) = 3
  /\ self (exec (hangups_start mallory) connected_world)
     = self connected_world.
Proof.
  split; [reflexivity | ].
  pose proof (hangups_start_while_running alice connected_world eq_refl)
    as Hcookies.
  pose proof (hangups_start_while_running mallory connected_world eq_refl)
    as Hwarned.
  split; [exact (proj1 (proj2 Hcookies)) | split].
  - exact (proj1 (proj2 (proj2 (proj2 (proj2 (proj2 (proj2 Hcookies))))))).
  - exact (proj1 Hwarned).
Defined.

(** C2 (as stated, refuted): in the initial world the session is
    Disconnected and there is no client, and [hangups_stop] raises. *)
Lemma hangups_stop_disconnected_raises :
  hangups_running (self (init_world alice "cookies.json")) = false
  /\ client (self (init_world alice "cookies.json")) = None
  /\ fst (hangups_stop (init_world alice "cookies.json"))
     = Raise (AttributeError
                "'NoneType' object has no attribute 'disconnect'").
Proof.
  repeat split.
Qed.

(** C2 (amended): [hangups_stop] has no guard either.  Called when the
    session is Disconnected and the client handle is absent, it raises
    [AttributeError] at [self.client.disconnect()], before any assignment:
    the widget, the effects, the allocation counter and the registrations
    are left unchanged. *)
Theorem hangups_stop_when_disconnected (w : World) :
  hangups_running (self w) = false ->
  client (self w) = None ->
  fst (hangups_stop w)
  = Raise (AttributeError "'NoneType' object has no attribute 'disconnect'")
  /\ self (exec hangups_stop w) = self w
  /\ effects (exec hangups_stop w) = effects w
  /\ next_id (exec hangups_stop w) = next_id w
  /\ awaiting_connect (exec hangups_stop w) = awaiting_connect w
  /\ observed (exec hangups_stop w) = observed w.
Proof.
  intros _ Hclient. unfold exec.
  rewrite (hangups_stop_absent w Hclient). cbn. repeat split.
Qed.

Lemma hangups_stop_when_disconnected_witness :
  self (exec hangups_stop (init_world alice "cookies.json"))
  = self (init_world alice "cookies.json").
Proof.
  exact (proj1 (proj2 (hangups_stop_when_disconnected
                         (init_world alice "cookies.json") eq_refl eq_refl))).
Defined.

(** [hangups_stop] by cases on the client handle: with a client it returns
    normally, the four session handles and the conversation views are
    absent and [hangups_running] is false; without one it raises before it
    releases anything and the widget is as it was. *)
Lemma hangups_stop_tears_down (w : World) :
  match client (self w) with
  | Some c =>
      fst (hangups_stop w) = Ok tt
      /\ torn_down (self (exec hangups_stop w))
      /\ hangups_running (self (exec hangups_stop w)) = false
      /\ effects (exec hangups_stop w)
         = effects w ++ [AsyncDisconnect (client_id c)]
  | None =>
      (exists e, fst (hangups_stop w) = Raise e)
      /\ self (exec hangups_stop w) = self w
  end.
Proof.
  destruct (client (self w)) as [c | ] eqn:Hclient; unfold exec.
  - rewrite (hangups_stop_present w c Hclient). cbn.
    unfold torn_down. cbn. repeat split.
  - rewrite (hangups_stop_absent w Hclient). cbn. split; [ | reflexivity].
    eexists; reflexivity.
Qed.

(** C9: when the user cancels the email, password or PIN prompt,
    [hangups_start] aborts with the cancel signal: besides the input dialogs
    it shows nothing, in particular no warning; the widget is unchanged, so
    a Disconnected session stays Disconnected; and no client is allocated,
    no observer registered and no connect scheduled.  When instead the
    credentials or the PIN are rejected, [hangups_start] returns after
    showing exactly one warning, also with the widget unchanged. *)
Theorem hangups_start_cancel_silent (env : Env) (w : World) :
  (cancels env ->
   exists l,
     hangups_start env w
     = (Raise AuthAbort, add_effects l (add_calls [Shangups_start] w))
     /\ forallb is_input_dialog l = true
     /\ existsb is_warning l = false
     /\ existsb session_effect l = false)
  /\ (wrong_credentials env ->
      exists l,
        hangups_start env w
        = (Ok tt,
           add_effects
             (l ++ [WarningBox "QHangups - Warning" "Google login failed!"])
             (add_calls [Shangups_start] w))
        /\ forallb is_input_dialog l = true).
Proof.
  split; intros H; rewrite hangups_start_unfold.
  - destruct (login_cancelled env (cookies_path (self w))
                (add_calls [Shangups_start] w) H) as (l & -> & Hl).
    exists l. repeat split; [exact Hl | | ].
    + clear - Hl. induction l as [| e l IH]; [reflexivity | ].
      cbn in *. destruct e; cbn in *; try discriminate. exact (IH Hl).
    + clear - Hl. induction l as [| e l IH]; [reflexivity | ].
      cbn in *. destruct e; cbn in *; try discriminate. exact (IH Hl).
  - destruct (login_rejected env (cookies_path (self w))
                (add_calls [Shangups_start] w) H) as (l & -> & Hl).
    exists l. cbn. split; [reflexivity | exact Hl].
Qed.

Lemma hangups_start_cancel_silent_witness :
  cancels alice_cancels /\ wrong_credentials mallory
  /\ hangups_start alice_cancels (init_world alice "cookies.json")
     = (Raise AuthAbort,
        add_effects [InputDialog "QHangups - Email";
                     InputDialog "QHangups - Password"]
          (add_calls [Shangups_start] (init_world alice "cookies.json")))
  /\ hangups_start mallory (init_world alice "cookies.json")
     = (Ok tt,
        add_effects [InputDialog "QHangups - Email";
                     InputDialog "QHangups - Password";
                     WarningBox "QHangups - Warning" "Google login failed!"]
          (add_calls [Shangups_start] (init_world alice "cookies.json"))).
Proof.
  assert (Hc : cancels alice_cancels).
  { right; left; split; reflexivity. }
  assert (Hm : wrong_credentials mallory).
  { split; [reflexivity | split; [reflexivity | left; reflexivity]]. }
  split; [exact Hc | split; [exact Hm | split]].
  - destruct (proj1 (hangups_start_cancel_silent alice_cancels
                       (init_world alice "cookies.json")) Hc) as (l & Heq & _).
    reflexivity.
  - destruct (proj2 (hangups_start_cancel_silent mallory
                       (init_world alice "cookies.json")) Hm) as (l & Heq & _).
    reflexivity.
Defined.

(** C10: an activation of the tray icon whose reason is not [Trigger]
    returns at once: the double-click timer is neither started nor stopped,
    no slot is entered, no effect is issued, and the world is the one the
    activation found. *)
Theorem icon_activated_other_reason (env : Env) (reason : ActivationReason)
    (now : Z) (w : World) :
  reason <> Trigger ->
  icon_activated env reason now w = (Ok tt, w).
Proof.
  intros H. unfold icon_activated.
  destruct reason; try reflexivity. now contradiction H.
Qed.

Lemma icon_activated_other_reason_witness :
  icon_activated alice Context 7 connected_world = (Ok tt, connected_world)
  /\ icon_activated alice MiddleClick 7 connected_world
     = (Ok tt, connected_world).
Proof.
  split.
  - apply (icon_activated_other_reason alice Context 7 connected_world).
    discriminate.
  - apply (icon_activated_other_reason alice MiddleClick 7 connected_world).
    discriminate.
Defined.

(** ** The tray gesture *)

Lemma arm_disarm (d : Z) (w : World) :
  icon_doubleclick_timer (self w) = None ->
  exec (modify_self (set_icon_doubleclick_timer None)) (arm d w) = w.
Proof.
  destruct w as [s e c n a o t]. destruct s. cbn. intros ->. reflexivity.
Qed.

Lemma icon_activated_idle (env : Env) (now : Z) (w : World) :
  icon_doubleclick_timer (self w) = None ->
  icon_activated env Trigger now w
  = (Ok tt, arm (now + doubleClickInterval env) w).
Proof.
  intros H. unfold icon_activated, bind, get_self. cbn. rewrite H.
  reflexivity.
Qed.

Lemma icon_activated_armed (env : Env) (now deadline : Z) (w : World) :
  icon_doubleclick_timer (self w) = Some deadline ->
  icon_activated env Trigger now w
  = toggle_connection env w
      (exec (modify_self (set_icon_doubleclick_timer None)) w).
Proof.
  intros H. unfold icon_activated, bind, get_self, toggle_connection.
  cbn. rewrite H. cbn. destruct (hangups_running (self w)); reflexivity.
Qed.

Lemma fire_timer_idle (now : Z) (w : World) :
  icon_doubleclick_timer (self w) = None -> fire_timer now w = w.
Proof.
  intros H. unfold fire_timer. now rewrite H.
Qed.

Lemma fire_timer_early (now deadline : Z) (w : World) :
  icon_doubleclick_timer (self w) = Some deadline ->
  (now < deadline)%Z ->
  fire_timer now w = w.
Proof.
  intros H Hlt. unfold fire_timer. rewrite H.
  destruct (Z.leb_spec deadline now); [lia | reflexivity].
Qed.

Lemma fire_timer_due (now deadline : Z) (w : World) :
  icon_doubleclick_timer (self w) = Some deadline ->
  (deadline <= now)%Z ->
  fire_timer now w
  = exec icon_doubleclick_timeout
      (exec (modify_self (set_icon_doubleclick_timer None)) w).
Proof.
  intros H Hle. unfold fire_timer. rewrite H.
  destruct (Z.leb_spec deadline now); [reflexivity | lia].
Qed.

(** [hangups_stop] enters its slot once and leaves the timer alone. *)
Lemma hangups_stop_calls (w : World) :
  calls (exec hangups_stop w) = calls w ++ [Shangups_stop]
  /\ icon_doubleclick_timer (self (exec hangups_stop w))
     = icon_doubleclick_timer (self w).
Proof.
  unfold exec. destruct (client (self w)) as [c | ] eqn:Hc.
  - rewrite (hangups_stop_present w c Hc). cbn. split; reflexivity.
  - rewrite (hangups_stop_absent w Hc). cbn. split; reflexivity.
Qed.

(** [hangups_start] enters its slot once and leaves the timer alone. *)
Lemma hangups_start_calls (env : Env) (w : World) :
  calls (exec (hangups_start env) w) = calls w ++ [Shangups_start]
  /\ icon_doubleclick_timer (self (exec (hangups_start env) w))
     = icon_doubleclick_timer (self w).
Proof.
  unfold exec.
  destruct (hangups_start_cases env w) as (l & _ & [(r & ->) | (j & ->)]);
    cbn; split; reflexivity.
Qed.

Lemma toggle_connection_calls (env : Env) (w : World) :
  calls (exec (toggle_connection env w) w) = calls w ++ [toggle_slot w]
  /\ icon_doubleclick_timer (self (exec (toggle_connection env w) w))
     = icon_doubleclick_timer (self w).
Proof.
  unfold toggle_connection, toggle_slot.
  destruct (hangups_running (self w)).
  - apply hangups_stop_calls.
  - apply hangups_start_calls.
Qed.

(** C5: two [Trigger] activations, the first finding the timer idle and the
    second arriving strictly within the double-click interval, make exactly
    one connection toggle, [hangups_stop] if the session was running and
    [hangups_start] otherwise, and no visibility toggle; the timer is
    stopped, so that no timeout fires afterwards. *)
Theorem double_click_toggles_connection (env1 env2 : Env) (t1 t2 : Z)
    (w : World) :
  icon_doubleclick_timer (self w) = None ->
  (t1 <= t2 < t1 + doubleClickInterval env1)%Z ->
  let w1 := deliver env1 t1 (IconActivated Trigger) w in
  let w2 := deliver env2 t2 (IconActivated Trigger) w1 in
  w1 = arm (t1 + doubleClickInterval env1) w
  /\ w2 = exec (toggle_connection env2 w) w
  /\ calls w2 = calls w ++ [toggle_slot w]
  /\ icon_doubleclick_timer (self w2) = None
  /\ (forall t, fire_timer t w2 = w2).
Proof.
  intros Hidle Ht w1 w2.
  assert (E1 : w1 = arm (t1 + doubleClickInterval env1) w).
  { subst w1. unfold deliver, dispatch, exec.
    rewrite (fire_timer_idle t1 w Hidle).
    now rewrite (icon_activated_idle env1 t1 w Hidle). }
  assert (E2 : w2 = exec (toggle_connection env2 w) w).
  { subst w2. rewrite E1. unfold deliver, dispatch.
    rewrite (fire_timer_early t2 (t1 + doubleClickInterval env1));
      [ | reflexivity | lia].
    unfold exec at 1.
    rewrite (icon_activated_armed env2 t2 (t1 + doubleClickInterval env1));
      [ | reflexivity].
    rewrite (arm_disarm _ w Hidle). reflexivity. }
  destruct (toggle_connection_calls env2 w) as (Hcalls & Htimer).
  rewrite <- E2 in Hcalls, Htimer. rewrite Hidle in Htimer.
  repeat split; try assumption.
  intros t. now apply fire_timer_idle.
Qed.

Lemma double_click_toggles_connection_witness :
  calls (run [(alice, 100%Z, IconActivated Trigger);
              (alice, 499%Z, IconActivated Trigger)] connected_world)
  = [Shangups_start; Shangups_stop]
  /\ calls (run [(alice, 100%Z, IconActivated Trigger);
                 (alice, 499%Z, IconActivated Trigger)]
              (init_world alice "cookies.json"))
     = [Shangups_start].
Proof.
  split.
  - pose proof (double_click_toggles_connection alice alice 100 499
                  connected_world eq_refl) as H.
    assert (Ht : (100 <= 499 < 100 + doubleClickInterval alice)%Z)
      by (cbn; lia).
    exact (proj1 (proj2 (proj2 (H Ht)))).
  - pose proof (double_click_toggles_connection alice alice 100 499
                  (init_world alice "cookies.json") eq_refl) as H.
    assert (Ht : (100 <= 499 < 100 + doubleClickInterval alice)%Z)
      by (cbn; lia).
    exact (proj1 (proj2 (proj2 (H Ht)))).
Defined.

Lemma icon_doubleclick_timeout_spec (w : World) :
  icon_doubleclick_timeout w
  = (Ok tt,
     mkWorld (set_conversations_dialog
                (toggle_visibility (conversations_dialog (self w))) (self w))
             (effects w) (calls w ++ [Sicon_doubleclick_timeout]) (next_id w)
             (awaiting_connect w) (observed w) (translators w)).
Proof.
  unfold icon_doubleclick_timeout, bind, enter, get_self. cbn.
  destruct w as [s e c n a o t]. destruct s as [? ? ? ? ? ? cd ? ? ? ? ?].
  cbn. destruct cd as [[cc cl [|]] | ]; reflexivity.
Qed.

(** C6: one [Trigger] activation that finds the timer idle, followed by
    silence for longer than the double-click interval, makes exactly one
    visibility toggle of the conversations dialog (hidden if it was visible,
    shown if it was hidden, nothing if there is none) and no connection
    toggle: the timer does not fire before its deadline, it fires once when
    the silence has lasted, and it is idle after that. *)
Theorem single_click_toggles_visibility (env : Env) (t1 t : Z) (w : World) :
  icon_doubleclick_timer (self w) = None ->
  (t1 + doubleClickInterval env < t)%Z ->
  let w1 := deliver env t1 (IconActivated Trigger) w in
  let w2 := fire_timer t w1 in
  (forall t', (t' < t1 + doubleClickInterval env)%Z -> fire_timer t' w1 = w1)
  /\ w2 = exec icon_doubleclick_timeout w
  /\ calls w2 = calls w ++ [Sicon_doubleclick_timeout]
  /\ self w2
     = set_conversations_dialog
         (toggle_visibility (conversations_dialog (self w))) (self w)
  /\ effects w2 = effects w
  /\ (forall t', fire_timer t' w2 = w2).
Proof.
  intros Hidle Ht w1 w2.
  assert (E1 : w1 = arm (t1 + doubleClickInterval env) w).
  { subst w1. unfold deliver, dispatch, exec.
    rewrite (fire_timer_idle t1 w Hidle).
    now rewrite (icon_activated_idle env t1 w Hidle). }
  assert (E2 : w2 = exec icon_doubleclick_timeout w).
  { subst w2. rewrite E1.
    rewrite (fire_timer_due t (t1 + doubleClickInterval env));
      [ | reflexivity | lia].
    now rewrite (arm_disarm _ w Hidle). }
  split.
  { intros t' Ht'. rewrite E1.
    now apply (fire_timer_early t' (t1 + doubleClickInterval env)). }
  split; [exact E2 | ].
  rewrite E2. unfold exec. rewrite icon_doubleclick_timeout_spec. cbn.
  repeat split.
  intros t'. apply fire_timer_idle. cbn. exact Hidle.
Qed.

Lemma single_click_toggles_visibility_witness :
  calls (fire_timer 501
           (deliver alice 100 (IconActivated Trigger) connected_world))
  = [Shangups_start; Sicon_doubleclick_timeout]
  /\ option_map cd_visible
       (conversations_dialog
          (self (fire_timer 501
                   (deliver alice 100 (IconActivated Trigger)
                            connected_world))))
     = Some false.
Proof.
  assert (Ht : (100 + doubleClickInterval alice < 501)%Z) by (cbn; lia).
  pose proof (single_click_toggles_visibility alice 100 501 connected_world
                eq_refl Ht) as H.
  split.
  - exact (proj1 (proj2 (proj2 H))).
  - exact (f_equal (fun s => option_map cd_visible (conversations_dialog s))
                   (proj1 (proj2 (proj2 (proj2 H))))).
Defined.

(** ** Event routing *)

Lemma on_event_first (w : World) (c1 : ConvId) (text : string) :
  messages_dialog (self w) = None ->
  on_event (ChatMessageEvent c1 text) w
  = (Ok tt,
     mkWorld (set_messages_dialog
                (Some (mkMessagesDialog (next_id w) (client (self w))
                         (conv_list (self w)) [c1] (Some c1) true)) (self w))
             (effects w ++ [NewMessagesDialog (next_id w)]) (calls w)
             (S (next_id w)) (awaiting_connect w) (observed w)
             (translators w)).
Proof.
  intros H.
  unfold on_event, ensure_messages_dialog, on_messages_dialog, bind, get_self,
    fresh, emit, modify_self.
  cbn. rewrite H. cbn. reflexivity.
Qed.

Lemma on_event_again (w : World) (d : MessagesDialog) (c2 : ConvId)
    (text : string) :
  messages_dialog (self w) = Some d ->
  on_event (ChatMessageEvent c2 text) w
  = (Ok tt,
     mkWorld (set_messages_dialog
                (Some (md_show (set_conv_tab c2 true d))) (self w))
             (effects w) (calls w) (next_id w) (awaiting_connect w)
             (observed w) (translators w)).
Proof.
  intros H.
  unfold on_event, ensure_messages_dialog, on_messages_dialog, bind, get_self,
    modify_self, ret.
  cbn. rewrite H. cbn. rewrite H. cbn. reflexivity.
Qed.

Lemma set_conv_tab_keeps (conv_id c : ConvId) (switch : bool)
    (d : MessagesDialog) :
  In c (md_tabs d) -> In c (md_tabs (set_conv_tab conv_id switch d)).
Proof.
  intros H. unfold set_conv_tab. cbn.
  destruct (existsb (String.eqb conv_id) (md_tabs d)); [exact H | ].
  apply in_or_app. now left.
Qed.

Lemma set_conv_tab_has (conv_id : ConvId) (switch : bool)
    (d : MessagesDialog) :
  In conv_id (md_tabs (set_conv_tab conv_id switch d)).
Proof.
  unfold set_conv_tab. cbn.
  destruct (existsb (String.eqb conv_id) (md_tabs d)) eqn:E.
  - apply existsb_exists in E. destruct E as (x & Hin & Heq).
    apply String.eqb_eq in Heq. now subst x.
  - apply in_or_app. right. now left.
Qed.

(** C7: a message-arrival event that finds no message view creates exactly
    one, with the tab of the event's conversation as its only and current
    tab, and shows it; a message-arrival event that finds a message view
    creates none: the same view keeps every tab it had, has the tab of the
    event's conversation, targets it and is shown; for two conversations in
    a row the one view ends with both tabs and the second one current; an
    event that is not a message arrival changes nothing. *)
Theorem on_event_routes (w : World) :
  (forall c1 text,
      messages_dialog (self w) = None ->
      on_event (ChatMessageEvent c1 text) w
      = (Ok tt,
         mkWorld (set_messages_dialog
                    (Some (mkMessagesDialog (next_id w) (client (self w))
                             (conv_list (self w)) [c1] (Some c1) true))
                    (self w))
                 (effects w ++ [NewMessagesDialog (next_id w)]) (calls w)
                 (S (next_id w)) (awaiting_connect w) (observed w)
                 (translators w)))
  /\ (forall d c2 text,
         messages_dialog (self w) = Some d ->
         exists d',
           on_event (ChatMessageEvent c2 text) w
           = (Ok tt,
              mkWorld (set_messages_dialog (Some d') (self w)) (effects w)
                      (calls w) (next_id w) (awaiting_connect w) (observed w)
                      (translators w))
           /\ md_id d' = md_id d
           /\ (forall c, In c (md_tabs d) -> In c (md_tabs d'))
           /\ In c2 (md_tabs d')
           /\ md_current d' = Some c2
           /\ md_visible d' = true)
  /\ (forall c1 c2 text1 text2,
         messages_dialog (self w) = None ->
         c1 <> c2 ->
         let w2 := exec (on_event (ChatMessageEvent c2 text2))
                        (exec (on_event (ChatMessageEvent c1 text1)) w) in
         messages_dialog (self w2)
         = Some (mkMessagesDialog (next_id w) (client (self w))
                   (conv_list (self w)) [c1; c2] (Some c2) true)
         /\ effects w2 = effects w ++ [NewMessagesDialog (next_id w)])
  /\ (forall conv_event,
         is_chat_message conv_event = false ->
         on_event conv_event w = (Ok tt, w)).
Proof.
  split; [ | split; [ | split]].
  - intros c1 text H. exact (on_event_first w c1 text H).
  - intros d c2 text H. exists (md_show (set_conv_tab c2 true d)).
    split; [exact (on_event_again w d c2 text H) | ].
    repeat split.
    + intros c Hc. exact (set_conv_tab_keeps c2 c true d Hc).
    + exact (set_conv_tab_has c2 true d).
  - intros c1 c2 text1 text2 H Hneq w2. subst w2. unfold exec.
    rewrite (on_event_first w c1 text1 H). cbn [snd].
    match goal with
    | |- context [on_event _ ?w1] =>
        rewrite (on_event_again w1
                   (mkMessagesDialog (next_id w) (client (self w))
                      (conv_list (self w)) [c1] (Some c1) true)
                   c2 text2 eq_refl)
    end.
    cbn.
    unfold set_conv_tab, md_show. cbn.
    destruct (String.eqb_spec c2 c1) as [E | _]; [now subst | ].
    cbn. split; reflexivity.
  - intros [c t | c n | c] H; cbn in H; try discriminate; reflexivity.
Qed.

Lemma on_event_routes_witness :
  option_map md_tabs
    (messages_dialog
       (self (exec (on_event (ChatMessageEvent "C2" "hi"))
                (exec (on_event (ChatMessageEvent "C1" "hello"))
                      connected_world))))
  = Some ["C1"; "C2"]
  /\ on_event (RenameEvent "C1" "chat") connected_world
     = (Ok tt, connected_world).
Proof.
  pose proof (on_event_routes connected_world) as (_ & _ & Htwo & Hother).
  split.
  - assert (Hneq : "C1" <> "C2") by discriminate.
    exact (f_equal (option_map md_tabs)
             (proj1 (Htwo "C1" "C2" "hello" "hi" eq_refl Hneq))).
  - exact (Hother (RenameEvent "C1" "chat") eq_refl).
Defined.

(** ** Settings *)

Lemma set_language_frame (env : Env) (w : World) :
  exists t,
    set_language env w
    = (Ok tt,
       mkWorld (self w) (effects w) (calls w) (next_id w)
               (awaiting_connect w) (observed w) t).
Proof.
  unfold set_language, set_translators.
  match goal with |- context [isfile env ?f] => destruct (isfile env f) end;
    eexists; reflexivity.
Qed.

Lemma no_session_effect_no_disconnect (l : list Effect) :
  forallb (fun e => negb (session_effect e)) l = true ->
  existsb is_disconnect l = false.
Proof.
  induction l as [| e l IH]; cbn; [reflexivity | ].
  intros H. apply andb_true_iff in H. destruct H as (He & Hl).
  rewrite (IH Hl). destruct e; cbn in *; try reflexivity; discriminate.
Qed.

(** C8: an accepted settings change while the session is running, with its
    client handle present, performs [hangups_stop] once and then
    [hangups_start] once, in that order: the stop returns and leaves the
    session Disconnected with every handle and view released, the start runs
    on that world, and the one disconnect precedes everything the start
    does.  When the session is not running, neither slot is entered and
    neither the widget nor the effects change; a rejected dialog changes
    nothing. *)
Theorem settings_reconnects (env : Env) (w : World) :
  (forall c,
      hangups_running (self w) = true ->
      client (self w) = Some c ->
      let w0 := exec (set_language env) w in
      let w1 := exec hangups_stop w0 in
      let w2 := exec (settings env true) w in
      fst (hangups_stop w0) = Ok tt
      /\ status (self w1) = Disconnected
      /\ torn_down (self w1)
      /\ settings env true w = hangups_start env w1
      /\ calls w2 = calls w ++ [Shangups_stop; Shangups_start]
      /\ exists l,
          effects w2 = effects w ++ AsyncDisconnect (client_id c) :: l
          /\ existsb is_disconnect l = false)
  /\ (hangups_running (self w) = false ->
      forall accepted,
        let w2 := exec (settings env accepted) w in
        calls w2 = calls w /\ self w2 = self w /\ effects w2 = effects w)
  /\ settings env false w = (Ok tt, w).
Proof.
  destruct (set_language_frame env w) as (t & Hlang).
  split; [ | split].
  - intros c Hrun Hclient w0 w1 w2.
    assert (E0 : w0 = mkWorld (self w) (effects w) (calls w) (next_id w)
                              (awaiting_connect w) (observed w) t).
    { subst w0. unfold exec. now rewrite Hlang. }
    assert (Hstop : hangups_stop w0
                    = (Ok tt,
                       mkWorld (stopped (self w))
                         (effects w ++ [AsyncDisconnect (client_id c)])
                         (calls w ++ [Shangups_stop]) (next_id w)
                         (awaiting_connect w) (observed w) t)).
    { rewrite E0.
      exact (hangups_stop_present
               (mkWorld (self w) (effects w) (calls w) (next_id w)
                        (awaiting_connect w) (observed w) t) c Hclient). }
    assert (E1 : w1 = mkWorld (stopped (self w))
                        (effects w ++ [AsyncDisconnect (client_id c)])
                        (calls w ++ [Shangups_stop]) (next_id w)
                        (awaiting_connect w) (observed w) t).
    { subst w1. unfold exec. now rewrite Hstop. }
    assert (E : settings env true w = hangups_start env w1).
    { unfold settings, bind, get_self. rewrite Hlang. cbn [self].
      rewrite Hrun. rewrite <- E0. rewrite Hstop. now rewrite E1. }
    split; [now rewrite Hstop | ].
    split; [now rewrite E1 | ].
    split; [rewrite E1; unfold torn_down; cbn; tauto | ].
    split; [exact E | ].
    subst w2. unfold exec. rewrite E.
    destruct (hangups_start_cases env w1)
      as (l & Hl & [(r & ->) | (j & ->)]); rewrite E1; cbn.
    + split; [now rewrite <- app_assoc | ].
      exists l. split; [now rewrite <- app_assoc | ].
      now apply no_session_effect_no_disconnect.
    + split; [now rewrite <- app_assoc | ].
      eexists. split; [rewrite <- app_assoc; reflexivity | ].
      rewrite existsb_app, (no_session_effect_no_disconnect l Hl).
      reflexivity.
  - intros Hrun [|] w2; subst w2; unfold exec, settings, bind, get_self.
    + rewrite Hlang. cbn. rewrite Hrun. cbn. repeat split.
    + cbn. repeat split.
  - reflexivity.
Qed.

Lemma settings_reconnects_witness :
  calls (exec (settings alice true) connected_world)
  = calls connected_world ++ [Shangups_stop; Shangups_start]
  /\ calls (exec (settings alice true) (init_world alice "cookies.json"))
     = calls (init_world alice "cookies.json").
Proof.
  pose proof (settings_reconnects alice connected_world) as (Hrun & _ & _).
  pose proof (settings_reconnects alice (init_world alice "cookies.json"))
    as (_ & Hidle & _).
  split.
  - exact (proj1 (proj2 (proj2 (proj2 (proj2
             (Hrun (mkClient 0 [("SID", "abc")]) eq_refl eq_refl)))))).
  - exact (proj1 (Hidle eq_refl true)).
Defined.

(** ** The session invariant along runs without late callbacks *)

Lemma exec_bind {A B} (m : M A) (k : A -> M B) (w : World) :
  exec (bind m k) w
  = match m w with
    | (Ok a, w') => exec (k a) w'
    | (Raise _, w') => w'
    end.
Proof.
  unfold exec, bind. destruct (m w) as [[a | e] w']; reflexivity.
Qed.

Lemma consistent_ext (s s' : Widget) :
  session_part s' = session_part s -> consistent s -> consistent s'.
Proof.
  unfold session_part, consistent, session_invariant, status.
  intros H. injection H as -> -> -> -> -> -> ->. tauto.
Qed.

Lemma consistent_stopped (s : Widget) : consistent (stopped s).
Proof.
  repeat split.
Qed.

Lemma consistent_after_stop (s : Widget) :
  consistent s -> consistent (after_stop s).
Proof.
  unfold after_stop. destruct (present (client s)); [ | tauto].
  intros _. apply consistent_stopped.
Qed.

Lemma consistent_started (n : nat) (cookies : Cookies) (s : Widget) :
  consistent s -> hangups_running s = false ->
  consistent (started n cookies s).
Proof.
  unfold consistent, session_invariant, status. cbn.
  intros (Hinv & _ & _) Hrun. rewrite Hrun in Hinv.
  destruct (conv_list s), (user_list s), (notifier s), (client s);
    cbn in *; try discriminate; repeat split.
Qed.

Lemma consistent_running_client (s : Widget) :
  consistent s -> hangups_running s = present (client s).
Proof.
  unfold consistent, session_invariant, status.
  intros (Hinv & _ & _).
  destruct (hangups_running s), (conv_list s), (client s); cbn in *;
    try reflexivity; discriminate.
Qed.

Lemma hangups_start_self (env : Env) (w : World) :
  self (exec (hangups_start env) w) = self w
  \/ exists cookies,
       self (exec (hangups_start env) w)
       = started (next_id w) cookies (self w).
Proof.
  unfold exec.
  destruct (hangups_start_cases env w) as (l & _ & [(r & ->) | (j & ->)]).
  - now left.
  - right. now exists j.
Qed.

Lemma hangups_stop_self (w : World) :
  self (exec hangups_stop w) = after_stop (self w).
Proof.
  unfold exec, after_stop. destruct (client (self w)) as [c | ] eqn:Hc.
  - now rewrite (hangups_stop_present w c Hc).
  - now rewrite (hangups_stop_absent w Hc).
Qed.

Lemma hangups_start_consistent (env : Env) (w : World) :
  consistent (self w) -> hangups_running (self w) = false ->
  consistent (self (exec (hangups_start env) w)).
Proof.
  intros Hc Hrun.
  destruct (hangups_start_self env w) as [-> | (j & ->)];
    [exact Hc | now apply consistent_started].
Qed.

Lemma hangups_stop_consistent (w : World) :
  consistent (self w) -> consistent (self (exec hangups_stop w)).
Proof.
  intros Hc. rewrite hangups_stop_self. now apply consistent_after_stop.
Qed.

(** [hangups_stop] then [hangups_start], as the settings slot runs them. *)
Lemma reconnect_consistent (env : Env) (w : World) :
  consistent (self w) ->
  consistent (self (exec (hangups_stop ;;; hangups_start env) w)).
Proof.
  intros Hc. rewrite exec_bind.
  destruct (client (self w)) as [c | ] eqn:Hclient.
  - rewrite (hangups_stop_present w c Hclient).
    apply hangups_start_consistent; cbn; [apply consistent_stopped | ].
    reflexivity.
  - rewrite (hangups_stop_absent w Hclient). exact Hc.
Qed.

Lemma fire_timer_session_part (now : Z) (w : World) :
  session_part (self (fire_timer now w)) = session_part (self w).
Proof.
  unfold fire_timer.
  destruct (icon_doubleclick_timer (self w)) as [d | ]; [ | reflexivity].
  destruct (d <=? now)%Z; [ | reflexivity].
  rewrite exec_bind. cbn. unfold exec.
  rewrite icon_doubleclick_timeout_spec. reflexivity.
Qed.

Lemma fire_timer_client (now : Z) (w : World) :
  client (self (fire_timer now w)) = client (self w).
Proof.
  pose proof (fire_timer_session_part now w) as H.
  unfold session_part in H. now injection H.
Qed.

Lemma settings_consistent (env : Env) (accepted : bool) (w : World) :
  consistent (self w) -> consistent (self (exec (settings env accepted) w)).
Proof.
  intros Hc. destruct accepted; [ | exact Hc].
  unfold settings. rewrite exec_bind.
  destruct (set_language_frame env w) as (t & ->).
  rewrite exec_bind. cbn [get_self self].
  destruct (hangups_running (self w)); [ | exact Hc].
  now apply reconnect_consistent.
Qed.

Lemma quit_consistent (force reply_yes : bool) (w : World) :
  consistent (self w) -> consistent (self (exec (quit force reply_yes) w)).
Proof.
  intros Hc. unfold quit. rewrite exec_bind. cbn [get_self].
  assert (Hstop : forall w',
             self w' = self w ->
             consistent (self (exec (hangups_stop ;;; emit LoopStop) w'))).
  { intros w' Hw'. rewrite exec_bind.
    pose proof (hangups_stop_consistent w') as Hs. rewrite Hw' in Hs.
    unfold exec in Hs.
    destruct (hangups_stop w') as [[[] | e] w'']; cbn in *; now apply Hs. }
  destruct (hangups_running (self w)); [ | exact Hc].
  destruct force; cbn [negb].
  - now apply Hstop.
  - rewrite exec_bind. cbn [emit].
    destruct reply_yes; cbn [negb]; [now apply Hstop | exact Hc].
Qed.

Lemma icon_activated_consistent (env : Env) (reason : ActivationReason)
    (now : Z) (w : World) :
  consistent (self w) ->
  consistent (self (exec (icon_activated env reason now) w)).
Proof.
  intros Hc.
  destruct reason; try exact Hc.
  destruct (icon_doubleclick_timer (self w)) as [d | ] eqn:Ht; unfold exec.
  - rewrite (icon_activated_armed env now d w Ht).
    unfold toggle_connection.
    destruct (hangups_running (self w)) eqn:Hrun.
    + apply hangups_stop_consistent.
      apply (consistent_ext (self w)); [reflexivity | exact Hc].
    + apply hangups_start_consistent; [ | exact Hrun].
      apply (consistent_ext (self w)); [reflexivity | exact Hc].
  - rewrite (icon_activated_idle env now w Ht).
    apply (consistent_ext (self w)); [reflexivity | exact Hc].
Qed.

Lemma on_connect_spec (initial_data : Snapshot) (w : World) (c : Client) :
  client (self w) = Some c ->
  let s := self w in
  let users :=
    mkUserList (Some c) (self_entity initial_data) (entities initial_data)
               (conversation_participants initial_data) in
  let convs :=
    mkConversationList (next_id w) (Some c)
                       (conversation_states initial_data) users
                       (sync_timestamp initial_data) in
  on_connect initial_data w
  = (Ok tt,
     mkWorld
       (set_conversations_dialog
          (Some (mkConversationsDialog (Some c) (Some convs) true))
          (set_notifier (Some (mkNotifier convs))
             (set_conv_list (Some convs)
                (set_user_list (Some users) s))))
       (((effects w ++ [Stdout "Connected"])
         ++ [AddEventObserver (next_id w)]) ++ [NewConversationsDialog])
       (calls w) (S (next_id w)) (awaiting_connect w)
       (observed w ++ [next_id w]) (translators w)).
Proof.
  destruct w as [s e k n a o t]. destruct s. cbn. intros ->. reflexivity.
Qed.

Lemma on_connect_absent (initial_data : Snapshot) (w : World) :
  client (self w) = None ->
  on_connect initial_data w
  = (Raise (AttributeError
              "'NoneType' object has no attribute 'on_state_update'"),
     add_effects [Stdout "Connected"] w).
Proof.
  destruct w as [s e k n a o t]. destruct s. cbn. intros ->. reflexivity.
Qed.

Lemma on_connect_session_part (initial_data : Snapshot) (w : World)
    (c : Client) :
  client (self w) = Some c ->
  exists users convs note,
    session_part (self (exec (on_connect initial_data) w))
    = (hangups_running (self w), client (self w), Some convs, Some users,
       Some note, startAction_enabled (self w), stopAction_enabled (self w)).
Proof.
  intros Hc. unfold exec. rewrite (on_connect_spec initial_data w c Hc).
  cbn [snd self]. unfold session_part. cbn. rewrite Hc.
  do 3 eexists. reflexivity.
Qed.

Lemma on_connect_consistent (initial_data : Snapshot) (w : World) :
  consistent (self w) ->
  consistent (self (exec (on_connect initial_data) w)).
Proof.
  intros Hc. destruct (client (self w)) as [c | ] eqn:Hclient.
  - pose proof (consistent_running_client _ Hc) as Hrun.
    rewrite Hclient in Hrun. cbn in Hrun.
    destruct Hc as (_ & Hstart & Hstop).
    destruct (on_connect_session_part initial_data w c Hclient)
      as (users & convs & note & Hpart).
    generalize dependent (self (exec (on_connect initial_data) w)).
    intros s' Hpart. unfold session_part in Hpart.
    injection Hpart as H1 H2 H3 H4 H5 H6 H7.
    unfold consistent, session_invariant, status.
    rewrite H1, H2, H3, H4, H5, H6, H7, Hrun, Hclient, Hstart, Hstop, Hrun.
    repeat split.
  - unfold exec. rewrite (on_connect_absent initial_data w Hclient).
    exact Hc.
Qed.

Lemma on_event_session_part (conv_event : ConversationEvent) (w : World) :
  session_part (self (exec (on_event conv_event) w)) = session_part (self w).
Proof.
  destruct conv_event as [c text | c name | c]; try reflexivity.
  unfold exec. destruct (messages_dialog (self w)) as [d | ] eqn:Hd.
  - now rewrite (on_event_again w d c text Hd).
  - now rewrite (on_event_first w c text Hd).
Qed.

Lemma open_messages_dialog_session_part (conv_id : ConvId) (switch : bool)
    (w : World) :
  session_part (self (exec (open_messages_dialog conv_id switch) w))
  = session_part (self w).
Proof.
  unfold exec, open_messages_dialog, ensure_messages_dialog,
    on_messages_dialog, bind, get_self, fresh, emit, modify_self, ret.
  cbn. destruct (messages_dialog (self w)) as [d | ] eqn:Hd; cbn;
    rewrite ?Hd; cbn; rewrite ?Hd; reflexivity.
Qed.

(** One input keeps the widget consistent. *)
Lemma deliver_consistent (env : Env) (now : Z) (i : Input) (w : World) :
  consistent (self w) ->
  consistent (self (deliver env now i w)).
Proof.
  intros Hc. unfold deliver.
  assert (Hc' : consistent (self (fire_timer now w))).
  { apply (consistent_ext (self w));
      [apply fire_timer_session_part | exact Hc]. }
  revert Hc'. generalize (fire_timer now w). intros w' Hc'.
  destruct i as [ | | accepted | reply_yes | | reason | id initial_data
                | id conv_event | conv_id switch ]; cbn [dispatch].
  - destruct (startAction_enabled (self w')) eqn:He; [ | exact Hc'].
    apply hangups_start_consistent; [exact Hc' | ].
    destruct Hc' as (_ & Hstart & _). rewrite He in Hstart.
    now destruct (hangups_running (self w')).
  - destruct (stopAction_enabled (self w')); [ | exact Hc'].
    now apply hangups_stop_consistent.
  - now apply settings_consistent.
  - now apply quit_consistent.
  - now apply quit_consistent.
  - now apply icon_activated_consistent.
  - destruct (existsb (Nat.eqb id) (awaiting_connect w')); [ | exact Hc'].
    rewrite exec_bind. cbn [get_world]. rewrite exec_bind.
    cbn [set_awaiting_connect].
    apply on_connect_consistent. exact Hc'.
  - destruct (existsb (Nat.eqb id) (observed w')); [ | exact Hc'].
    apply (consistent_ext (self w'));
      [apply on_event_session_part | exact Hc'].
  - apply (consistent_ext (self w'));
      [apply open_messages_dialog_session_part | exact Hc'].
Qed.

(** Along every run the session invariant holds and the menu follows
    [hangups_running]. *)
Lemma run_consistent_any (l : list (Env * Z * Input)) (w : World) :
  consistent (self w) ->
  consistent (self (run l w)).
Proof.
  revert w. induction l as [| [[env now] i] rest IH]; intros w Hc.
  - exact Hc.
  - cbn [run]. apply IH. now apply deliver_consistent.
Qed.

Lemma run_consistent (l : list (Env * Z * Input)) (w : World) :
  timely l w = true ->
  consistent (self w) ->
  consistent (self (run l w)).
Proof.
  intros _. apply run_consistent_any.
Qed.

(** The initial world is the initial widget with the translators that
    [set_language] has loaded. *)
Lemma init_world_eq (env : Env) (cookies : string) :
  exists t,
    init_world env cookies = mkWorld (init_widget cookies) [] [] 0 [] [] t.
Proof.
  unfold init_world, exec.
  destruct (set_language_frame env
              (mkWorld (init_widget cookies) [] [] 0 [] []
                       (mkTranslators "" ""))) as (t & ->).
  now exists t.
Qed.

Lemma init_consistent (env : Env) (cookies : string) :
  consistent (self (init_world env cookies)).
Proof.
  destruct (init_world_eq env cookies) as (t & ->). repeat split.
Qed.

(** The session invariant in every world reached without a late connect
    callback. *)
Lemma session_invariant_timely (env : Env) (cookies : string)
    (l : list (Env * Z * Input)) :
  timely l (init_world env cookies) = true ->
  session_invariant (self (run l (init_world env cookies))) = true.
Proof.
  intros Ht. apply (run_consistent l _ Ht (init_consistent env cookies)).
Qed.

(** ** The menu and the tray icon along every run *)

Lemma in_step_ext (s s' : Widget) :
  status_part s' = status_part s -> in_step s -> in_step s'.
Proof.
  unfold status_part, in_step. intros H. injection H as -> -> -> -> ->. tauto.
Qed.

Lemma in_step_stopped (s : Widget) : in_step (stopped s).
Proof.
  repeat split.
Qed.

Lemma in_step_started (n : nat) (cookies : Cookies) (s : Widget) :
  in_step (started n cookies s).
Proof.
  repeat split.
Qed.

Lemma status_step_in_step (s s' : Widget) :
  status_step s s' -> in_step s -> in_step s'.
Proof.
  intros [H | [(s0 & ->) | (n & j & s0 & ->)]] Hs.
  - now apply (in_step_ext s).
  - apply in_step_stopped.
  - apply in_step_started.
Qed.

Lemma status_step_ext (s0 s s' : Widget) :
  status_part s = status_part s0 -> status_step s s' -> status_step s0 s'.
Proof.
  intros H [H' | H']; [left; congruence | right; exact H'].
Qed.

Lemma hangups_start_status_step (env : Env) (w : World) :
  status_step (self w) (self (exec (hangups_start env) w)).
Proof.
  destruct (hangups_start_self env w) as [-> | (j & ->)].
  - now left.
  - right; right. now exists (next_id w), j, (self w).
Qed.

Lemma hangups_stop_status_step (w : World) :
  status_step (self w) (self (exec hangups_stop w)).
Proof.
  rewrite hangups_stop_self. unfold after_stop.
  destruct (present (client (self w))).
  - right; left. now exists (self w).
  - now left.
Qed.

Lemma reconnect_status_step (env : Env) (w : World) :
  status_step (self w) (self (exec (hangups_stop ;;; hangups_start env) w)).
Proof.
  rewrite exec_bind. destruct (client (self w)) as [c | ] eqn:Hclient.
  - rewrite (hangups_stop_present w c Hclient).
    match goal with
    | |- status_step _ (self (exec _ ?w1)) =>
        destruct (hangups_start_self env w1) as [-> | (j & ->)]
    end.
    + right; left. now exists (self w).
    + right; right. eexists _, j, _. reflexivity.
  - rewrite (hangups_stop_absent w Hclient). now left.
Qed.

Lemma settings_status_step (env : Env) (accepted : bool) (w : World) :
  status_step (self w) (self (exec (settings env accepted) w)).
Proof.
  destruct accepted; [ | now left].
  unfold settings. rewrite exec_bind.
  destruct (set_language_frame env w) as (t & ->).
  rewrite exec_bind. cbn [get_self self].
  destruct (hangups_running (self w)); [ | now left].
  match goal with
  | |- status_step _ (self (exec _ ?w1)) =>
      exact (reconnect_status_step env w1)
  end.
Qed.

Lemma quit_status_step (force reply_yes : bool) (w : World) :
  status_step (self w) (self (exec (quit force reply_yes) w)).
Proof.
  unfold quit. rewrite exec_bind. cbn [get_self].
  assert (Hstop : forall w',
             self w' = self w ->
             status_step (self w)
               (self (exec (hangups_stop ;;; emit LoopStop) w'))).
  { intros w' Hw'. rewrite exec_bind.
    pose proof (hangups_stop_status_step w') as Hs. rewrite Hw' in Hs.
    unfold exec in Hs.
    destruct (hangups_stop w') as [[[] | e] w'']; cbn in *; exact Hs. }
  destruct (hangups_running (self w)); [ | now left].
  destruct force; cbn [negb].
  - now apply Hstop.
  - rewrite exec_bind. cbn [emit].
    destruct reply_yes; cbn [negb]; [now apply Hstop | now left].
Qed.

Lemma icon_activated_status_step (env : Env) (reason : ActivationReason)
    (now : Z) (w : World) :
  status_step (self w) (self (exec (icon_activated env reason now) w)).
Proof.
  destruct reason; try (now left).
  destruct (icon_doubleclick_timer (self w)) as [d | ] eqn:Ht; unfold exec.
  - rewrite (icon_activated_armed env now d w Ht).
    unfold toggle_connection.
    destruct (hangups_running (self w)).
    + match goal with
      | |- status_step _ (self (snd (hangups_stop ?w1))) =>
          apply (status_step_ext (self w) (self w1));
            [reflexivity | exact (hangups_stop_status_step w1)]
      end.
    + match goal with
      | |- status_step _ (self (snd (hangups_start env ?w1))) =>
          apply (status_step_ext (self w) (self w1));
            [reflexivity | exact (hangups_start_status_step env w1)]
      end.
  - rewrite (icon_activated_idle env now w Ht). now left.
Qed.

Lemma on_connect_status_part (initial_data : Snapshot) (w : World) :
  status_part (self (exec (on_connect initial_data) w))
  = status_part (self w).
Proof.
  unfold exec. destruct (client (self w)) as [c | ] eqn:Hclient.
  - rewrite (on_connect_spec initial_data w c Hclient). reflexivity.
  - rewrite (on_connect_absent initial_data w Hclient). reflexivity.
Qed.

Lemma on_event_status_part (conv_event : ConversationEvent) (w : World) :
  status_part (self (exec (on_event conv_event) w)) = status_part (self w).
Proof.
  destruct conv_event as [c text | c name | c]; try reflexivity.
  unfold exec. destruct (messages_dialog (self w)) as [d | ] eqn:Hd.
  - now rewrite (on_event_again w d c text Hd).
  - now rewrite (on_event_first w c text Hd).
Qed.

Lemma open_messages_dialog_status_part (conv_id : ConvId) (switch : bool)
    (w : World) :
  status_part (self (exec (open_messages_dialog conv_id switch) w))
  = status_part (self w).
Proof.
  unfold exec, open_messages_dialog, ensure_messages_dialog,
    on_messages_dialog, bind, get_self, fresh, emit, modify_self, ret.
  cbn. destruct (messages_dialog (self w)) as [d | ] eqn:Hd; cbn;
    rewrite ?Hd; cbn; rewrite ?Hd; reflexivity.
Qed.

Lemma fire_timer_status_part (now : Z) (w : World) :
  status_part (self (fire_timer now w)) = status_part (self w).
Proof.
  unfold fire_timer.
  destruct (icon_doubleclick_timer (self w)) as [d | ]; [ | reflexivity].
  destruct (d <=? now)%Z; [ | reflexivity].
  rewrite exec_bind. cbn. unfold exec.
  rewrite icon_doubleclick_timeout_spec. reflexivity.
Qed.

Lemma deliver_status_step (env : Env) (now : Z) (i : Input) (w : World) :
  status_step (self w) (self (deliver env now i w)).
Proof.
  unfold deliver.
  apply (status_step_ext (self w) (self (fire_timer now w)));
    [apply fire_timer_status_part | ].
  generalize (fire_timer now w). intros w'.
  destruct i as [ | | accepted | reply_yes | | reason | id initial_data
                | id conv_event | conv_id switch ]; cbn [dispatch].
  - destruct (startAction_enabled (self w')); [ | now left].
    apply hangups_start_status_step.
  - destruct (stopAction_enabled (self w')); [ | now left].
    apply hangups_stop_status_step.
  - apply settings_status_step.
  - apply quit_status_step.
  - apply quit_status_step.
  - apply icon_activated_status_step.
  - destruct (existsb (Nat.eqb id) (awaiting_connect w')); [ | now left].
    rewrite exec_bind. cbn [get_world]. rewrite exec_bind.
    cbn [set_awaiting_connect]. left.
    match goal with
    | |- status_part (self (exec _ ?w1)) = _ =>
        exact (on_connect_status_part initial_data w1)
    end.
  - destruct (existsb (Nat.eqb id) (observed w')); [ | now left].
    left. apply on_event_status_part.
  - left. apply open_messages_dialog_status_part.
Qed.

Lemma run_in_step (l : list (Env * Z * Input)) (w : World) :
  in_step (self w) -> in_step (self (run l w)).
Proof.
  revert w. induction l as [| [[env now] i] rest IH]; intros w Hs.
  - exact Hs.
  - cbn [run]. apply IH.
    exact (status_step_in_step _ _ (deliver_status_step env now i w) Hs).
Qed.

Lemma reachable_connected_world : reachable connected_world.
Proof.
  exists alice, "cookies.json".
  exists [(alice, 0%Z, StartAction);
          (alice, 50%Z, ConnectCallback 0 snapshot0)].
  reflexivity.
Qed.

Lemma reachable_status (w : World) : reachable w -> in_step (self w).
Proof.
  intros (env & cookies & l & ->).
  apply (run_in_step l (init_world env cookies)).
  destruct (init_world_eq env cookies) as (t & ->). repeat split.
Qed.

(** X1: in every world that a run of the loop reaches, whatever the inputs
    and the order of the callbacks, [hangups_running] is true exactly when
    there is a client, the Connect action is enabled exactly when the
    session is not running, the Disconnect action exactly when it is, and
    the tray shows the active glyph exactly when it is. *)
Theorem reachable_in_step (w : World) :
  reachable w ->
  hangups_running (self w) = present (client (self w))
  /\ startAction_enabled (self w) = negb (hangups_running (self w))
  /\ stopAction_enabled (self w) = hangups_running (self w)
  /\ trayIcon (self w)
     = (if hangups_running (self w) then iconActive else iconDisabled).
Proof.
  intros (env & cookies & l & ->).
  apply (run_in_step l (init_world env cookies)).
  destruct (init_world_eq env cookies) as (t & ->). repeat split.
Qed.

Lemma reachable_in_step_witness :
  stopAction_enabled (self late_callback_world)
  = hangups_running (self late_callback_world)
  /\ trayIcon (self connected_world) = iconActive.
Proof.
  split.
  - assert (Hr : reachable late_callback_world).
    { exists alice, "cookies.json".
      exists [(alice, 0%Z, StartAction); (alice, 10%Z, StopAction);
              (alice, 50%Z, ConnectCallback 0 snapshot0)].
      reflexivity. }
    exact (proj1 (proj2 (proj2 (reachable_in_step late_callback_world Hr)))).
  - assert (Hr : reachable connected_world).
    { exists alice, "cookies.json".
      exists [(alice, 0%Z, StartAction);
              (alice, 50%Z, ConnectCallback 0 snapshot0)].
      reflexivity. }
    exact (proj2 (proj2 (proj2 (reachable_in_step connected_world Hr)))).
Defined.

(** ** Exceptions that escape the slots *)

Lemma login_raises_only_abort (env : Env) (path : string) (w : World) :
  (exists cookies, fst (login env path w) = Ok cookies)
  \/ fst (login env path w) = Raise AuthAbort.
Proof.
  login_cases env; (left; eexists; reflexivity) || (right; reflexivity).
Qed.

Lemma hangups_start_result (env : Env) (w : World) :
  fst (hangups_start env w) = Ok tt
  \/ fst (hangups_start env w) = Raise AuthAbort.
Proof.
  rewrite hangups_start_unfold.
  destruct (login_raises_only_abort env (cookies_path (self w))
              (add_calls [Shangups_start] w)) as [(cookies & H) | H];
    destruct (login env (cookies_path (self w))
                (add_calls [Shangups_start] w)) as [[c | e] w1];
    cbn in H; try discriminate.
  - left. now destruct (truthy c).
  - right. now injection H as ->.
Qed.

Lemma in_step_client (s : Widget) :
  in_step s -> hangups_running s = true -> exists c, client s = Some c.
Proof.
  intros (H & _) Hrun. rewrite Hrun in H.
  destruct (client s) as [c | ]; [now exists c | discriminate].
Qed.

Lemma quit_running (force reply_yes : bool) (w : World) (c : Client) :
  hangups_running (self w) = true ->
  client (self w) = Some c ->
  quit force reply_yes w
  = if negb force then
      if negb reply_yes then
        (Ok tt, add_effects [QuestionBox "QHangups - Quit"] w)
      else
        (Ok tt,
         mkWorld (stopped (self w))
                 (effects w ++ [QuestionBox "QHangups - Quit";
                                AsyncDisconnect (client_id c); LoopStop])
                 (calls w ++ [Shangups_stop]) (next_id w)
                 (awaiting_connect w) (observed w) (translators w))
    else
      (Ok tt,
       mkWorld (stopped (self w))
               (effects w ++ [AsyncDisconnect (client_id c); LoopStop])
               (calls w ++ [Shangups_stop]) (next_id w)
               (awaiting_connect w) (observed w) (translators w)).
Proof.
  intros Hrun Hclient. unfold quit, bind at 1, get_self. rewrite Hrun.
  destruct force; cbn [negb].
  - unfold bind. rewrite (hangups_stop_present w c Hclient). unfold emit. cbn.
    now rewrite <- ?app_assoc.
  - unfold bind at 1. cbn [emit].
    destruct reply_yes; cbn [negb]; [ | reflexivity].
    unfold bind.
    match goal with
    | |- context [hangups_stop ?w1] =>
        rewrite (hangups_stop_present w1 c Hclient)
    end.
    unfold emit. cbn. now rewrite <- ?app_assoc.
Qed.

Lemma quit_idle (force reply_yes : bool) (w : World) :
  hangups_running (self w) = false ->
  quit force reply_yes w = (Ok tt, add_effects [LoopStop] w).
Proof.
  intros Hrun. unfold quit, bind, get_self. now rewrite Hrun.
Qed.

(** X2: in every reachable world [quit] returns normally.  When the session
    runs, the quit is not forced and the question is not answered Yes, it
    has only shown the question: the widget is as it was and the loop is
    not stopped.  In every other case the loop is stopped as the last
    thing, after the disconnect if the session was running; the session is
    then not running and has no client, its handles and views are released
    if it was running, and the question was shown only for an unforced quit
    of a running session. *)
Theorem quit_in_reachable (force reply_yes : bool) (w : World) :
  reachable w ->
  fst (quit force reply_yes w) = Ok tt
  /\ let w' := exec (quit force reply_yes) w in
     if hangups_running (self w) && negb force && negb reply_yes then
       w' = add_effects [QuestionBox "QHangups - Quit"] w
     else
       (exists l,
           effects w' = effects w ++ l ++ [LoopStop]
           /\ existsb is_loop_stop l = false
           /\ existsb is_disconnect l = hangups_running (self w)
           /\ existsb (fun e => match e with
                                | QuestionBox _ => true
                                | _ => false
                                end) l
              = hangups_running (self w) && negb force)
       /\ hangups_running (self w') = false
       /\ client (self w') = None
       /\ (hangups_running (self w) = true -> torn_down (self w')).
Proof.
  intros Hr. pose proof (reachable_status w Hr) as Hs.
  destruct (hangups_running (self w)) eqn:Hrun.
  - destruct (in_step_client _ Hs Hrun) as (c & Hclient).
    unfold exec. rewrite (quit_running force reply_yes w c Hrun Hclient).
    destruct force, reply_yes; cbn; split; try reflexivity.
    + split; [ | repeat split].
      exists [AsyncDisconnect (client_id c)]. repeat split.
    + split; [ | repeat split].
      exists [AsyncDisconnect (client_id c)]. repeat split.
    + split; [ | repeat split].
      exists [QuestionBox "QHangups - Quit"; AsyncDisconnect (client_id c)].
      repeat split.
  - unfold exec. rewrite (quit_idle force reply_yes w Hrun). cbn.
    split; [reflexivity | ].
    split; [exists []; repeat split | ].
    destruct Hs as (Hc & _). rewrite Hrun in Hc.
    repeat split; try assumption; try discriminate.
    now destruct (client (self w)).
Qed.

Lemma quit_in_reachable_witness :
  exec (quit false false) connected_world
  = add_effects [QuestionBox "QHangups - Quit"] connected_world
  /\ client (self (exec (quit true false) connected_world)) = None.
Proof.
  assert (Hr : reachable connected_world).
  { exists alice, "cookies.json".
    exists [(alice, 0%Z, StartAction);
            (alice, 50%Z, ConnectCallback 0 snapshot0)].
    reflexivity. }
  split.
  - exact (proj2 (quit_in_reachable false false connected_world Hr)).
  - exact (proj1 (proj2 (proj2
             (proj2 (quit_in_reachable true false connected_world Hr))))).
Defined.

Lemma hangups_stop_returns (w : World) :
  in_step (self w) -> hangups_running (self w) = true ->
  fst (hangups_stop w) = Ok tt.
Proof.
  intros Hs Hrun. destruct (in_step_client _ Hs Hrun) as (c & Hclient).
  now rewrite (hangups_stop_present w c Hclient).
Qed.

Lemma bind_result_stop_start (env : Env) (w : World) :
  fst (hangups_stop w) = Ok tt ->
  fst ((hangups_stop ;;; hangups_start env) w) = Ok tt
  \/ fst ((hangups_stop ;;; hangups_start env) w) = Raise AuthAbort.
Proof.
  unfold bind. destruct (hangups_stop w) as [[[] | e] w1]; cbn;
    [ | discriminate].
  intros _. apply hangups_start_result.
Qed.

(** X3: in every reachable world the slots never fail on a missing client:
    [hangups_stop] returns whenever [hangups_running] is true, and the only
    exception that can escape [settings] or [icon_activated] is the cancel
    signal of the login inside [hangups_start]. *)
Theorem slots_raise_only_abort (w : World) :
  reachable w ->
  (hangups_running (self w) = true -> fst (hangups_stop w) = Ok tt)
  /\ (forall env accepted,
         fst (settings env accepted w) = Ok tt
         \/ fst (settings env accepted w) = Raise AuthAbort)
  /\ (forall env reason now,
         fst (icon_activated env reason now w) = Ok tt
         \/ fst (icon_activated env reason now w) = Raise AuthAbort).
Proof.
  intros Hr. pose proof (reachable_status w Hr) as Hs.
  split; [ | split].
  - now apply hangups_stop_returns.
  - intros env [|]; [ | now left].
    destruct (set_language_frame env w) as (t & Hlang).
    destruct (hangups_running (self w)) eqn:Hrun.
    + assert (E : settings env true w
                  = (hangups_stop ;;; hangups_start env)
                      (mkWorld (self w) (effects w) (calls w) (next_id w)
                               (awaiting_connect w) (observed w) t)).
      { unfold settings, bind at 1. rewrite Hlang.
        unfold bind at 1, get_self. cbn [self]. now rewrite Hrun. }
      rewrite E. apply bind_result_stop_start.
      apply hangups_stop_returns; [exact Hs | exact Hrun].
    + left. unfold settings, bind. rewrite Hlang. unfold get_self.
      cbn [self]. now rewrite Hrun.
  - intros env reason now. destruct reason; try (now left).
    destruct (icon_doubleclick_timer (self w)) as [d | ] eqn:Ht.
    + rewrite (icon_activated_armed env now d w Ht).
      unfold toggle_connection.
      destruct (hangups_running (self w)) eqn:Hrun.
      * left. apply hangups_stop_returns; [ | exact Hrun].
        apply (in_step_ext (self w)); [reflexivity | exact Hs].
      * apply hangups_start_result.
    + rewrite (icon_activated_idle env now w Ht). now left.
Qed.

Lemma slots_raise_only_abort_witness :
  fst (hangups_stop connected_world) = Ok tt
  /\ (fst (settings alice_cancels true connected_world) = Ok tt
      \/ fst (settings alice_cancels true connected_world)
         = Raise AuthAbort).
Proof.
  assert (Hr : reachable connected_world).
  { exists alice, "cookies.json".
    exists [(alice, 0%Z, StartAction);
            (alice, 50%Z, ConnectCallback 0 snapshot0)].
    reflexivity. }
  split.
  - exact (proj1 (slots_raise_only_abort connected_world Hr) eq_refl).
  - exact (proj1 (proj2 (slots_raise_only_abort connected_world Hr))
             alice_cancels true).
Defined.

(** ** A session from start to stop *)

Lemma login_obtained (env : Env) (path : string) (w : World)
    (cookies : Cookies) :
  fst (login env path w) = Ok (Some cookies) ->
  exists l,
    login env path w = (Ok (Some cookies), add_effects l w)
    /\ forallb is_input_dialog l = true.
Proof.
  login_cases env; cbn; intros H; try discriminate;
    injection H as <-; unfold add_effects; cbn; rewrite <- ?app_assoc; cbn;
    eexists; (split; [reflexivity | reflexivity]).
Qed.

Lemma hangups_start_obtains (env : Env) (w : World) :
  obtains_cookies env w = true ->
  exists l cookies,
    forallb is_input_dialog l = true
    /\ hangups_start env w
       = (Ok tt,
          mkWorld (started (next_id w) cookies (self w))
                  (effects w ++ l ++ [NewClient (next_id w);
                                      AddConnectObserver (next_id w);
                                      AsyncConnect (next_id w)])
                  (calls w ++ [Shangups_start]) (S (next_id w))
                  (awaiting_connect w ++ [next_id w]) (observed w)
                  (translators w)).
Proof.
  unfold obtains_cookies. intros H.
  rewrite (login_result_indep env (cookies_path (self w))
             (cookies_path (self w)) w (add_calls [Shangups_start] w)) in H.
  rewrite hangups_start_unfold.
  destruct (fst (login env (cookies_path (self w))
                   (add_calls [Shangups_start] w)))
    as [[cookies | ] | e] eqn:Hfst; try discriminate.
  destruct (login_obtained env _ _ cookies Hfst) as (l & -> & Hl).
  rewrite H. exists l, (jar (Some cookies)). split; [exact Hl | ].
  cbn. now rewrite <- app_assoc.
Qed.

(** X4: when the login obtains cookies, [hangups_start] followed by
    [hangups_stop] both return; the widget ends as [hangups_stop] leaves
    it, which is the widget before the start if that one was stopped; the
    client disconnected is the client just allocated, after its observer
    registration and its connect; and the connect callback of that client
    is still awaited, since [hangups_stop] does not unregister it. *)
Theorem start_then_stop (env : Env) (w : World) :
  obtains_cookies env w = true ->
  let n := next_id w in
  let w1 := exec (hangups_start env) w in
  let w2 := exec hangups_stop w1 in
  fst (hangups_start env w) = Ok tt
  /\ fst (hangups_stop w1) = Ok tt
  /\ self w2 = stopped (self w)
  /\ (self w = stopped (self w) -> self w2 = self w)
  /\ (exists l,
         forallb is_input_dialog l = true
         /\ effects w2
            = effects w ++ l ++ [NewClient n; AddConnectObserver n;
                                 AsyncConnect n; AsyncDisconnect n])
  /\ awaiting_connect w2 = awaiting_connect w ++ [n]
  /\ calls w2 = calls w ++ [Shangups_start; Shangups_stop].
Proof.
  intros H n w1 w2. subst n w1 w2. unfold exec.
  destruct (hangups_start_obtains env w H) as (l & cookies & Hl & ->).
  cbn [fst snd].
  match goal with
  | |- context [hangups_stop ?w1] =>
      rewrite (hangups_stop_present w1 (mkClient (next_id w) cookies) eq_refl)
  end.
  cbn [fst snd self effects awaiting_connect calls client_id].
  repeat split.
  - intros E. symmetry. exact E.
  - exists l. split; [exact Hl | ]. now rewrite <- !app_assoc.
  - now rewrite <- app_assoc.
Qed.

Lemma start_then_stop_witness :
  self (exec hangups_stop
          (exec (hangups_start alice) (init_world alice "cookies.json")))
  = self (init_world alice "cookies.json").
Proof.
  exact (proj1 (proj2 (proj2 (proj2
           (start_then_stop alice (init_world alice "cookies.json") eq_refl))))
         eq_refl).
Defined.

(** X5: from the initial widget, a Connect whose login obtains cookies,
    then the connect callback of the client, then a chat message on the
    conversation list: the session is Connected with its four handles, the
    conversations dialog is visible, and one message view is visible with
    the conversation of the message as its only and current tab; the
    collections, both dialogs and the notifier are built on the one client
    and the one conversation list, whatever the times of the inputs. *)
Theorem connect_then_message (env0 env1 env2 env3 : Env) (t1 t2 t3 : Z)
    (path : string) (initial_data : Snapshot) (conv_id : ConvId)
    (text : string) :
  obtains_cookies env1 (init_world env0 path) = true ->
  let w := run [(env1, t1, StartAction);
                (env2, t2, ConnectCallback 0 initial_data);
                (env3, t3, EventCallback 1 (ChatMessageEvent conv_id text))]
               (init_world env0 path) in
  status (self w) = Connected
  /\ session_invariant (self w) = true
  /\ calls w = [Shangups_start]
  /\ exists cookies users,
      let c := Some (mkClient 0 cookies) in
      let convs :=
        mkConversationList 1 c (conversation_states initial_data) users
                           (sync_timestamp initial_data) in
      client (self w) = c
      /\ ul_client users = c
      /\ user_list (self w) = Some users
      /\ conv_list (self w) = Some convs
      /\ notifier (self w) = Some (mkNotifier convs)
      /\ conversations_dialog (self w)
         = Some (mkConversationsDialog c (Some convs) true)
      /\ messages_dialog (self w)
         = Some (mkMessagesDialog 2 c (Some convs) [conv_id] (Some conv_id)
                                  true).
Proof.
  destruct (init_world_eq env0 path) as (t0 & ->).
  intros H w.
  destruct (hangups_start_obtains env1 _ H) as (l & cookies & Hl & Hstart).
  cbn [next_id self effects calls awaiting_connect observed translators app]
    in Hstart.
  assert (Ew1 : deliver env1 t1 StartAction
                  (mkWorld (init_widget path) [] [] 0 [] [] t0)
                = snd (hangups_start env1
                         (mkWorld (init_widget path) [] [] 0 [] [] t0)))
    by reflexivity.
  rewrite Hstart in Ew1. cbn [snd] in Ew1.
  match type of Ew1 with _ = ?r => set (w1 := r) in * end.
  assert (Ew2 : deliver env2 t2 (ConnectCallback 0 initial_data) w1
                = snd (on_connect initial_data
                         (mkWorld (self w1) (effects w1) (calls w1)
                                  (next_id w1) [] (observed w1)
                                  (translators w1))))
    by reflexivity.
  match type of Ew2 with
  | _ = snd (on_connect _ ?wx) =>
      rewrite (on_connect_spec initial_data wx (mkClient 0 cookies) eq_refl)
        in Ew2
  end.
  cbn [snd self effects calls next_id awaiting_connect observed translators]
    in Ew2.
  match type of Ew2 with _ = ?r => set (w2 := r) in * end.
  assert (Ew3 : deliver env3 t3
                  (EventCallback 1 (ChatMessageEvent conv_id text)) w2
                = snd (on_event (ChatMessageEvent conv_id text) w2))
    by reflexivity.
  rewrite (on_event_first w2 conv_id text eq_refl) in Ew3.
  cbn [snd] in Ew3.
  assert (Ew : w = deliver env3 t3
                     (EventCallback 1 (ChatMessageEvent conv_id text)) w2).
  { subst w. cbn [run]. now rewrite Ew1, Ew2. }
  rewrite Ew, Ew3. clear.
  split; [reflexivity | split; [reflexivity | split; [reflexivity | ]]].
  exists cookies.
  exists (mkUserList (Some (mkClient 0 cookies)) (self_entity initial_data)
            (entities initial_data) (conversation_participants initial_data)).
  repeat split.
Qed.

Lemma connect_then_message_witness :
  status (self (run [(alice, 0%Z, StartAction);
                     (alice, 50%Z, ConnectCallback 0 snapshot0);
                     (alice, 90%Z,
                      EventCallback 1 (ChatMessageEvent "C42" "hello"))]
                    (init_world alice "cookies.json")))
  = Connected.
Proof.
  exact (proj1 (connect_then_message alice alice alice alice 0 50 90
                  "cookies.json" snapshot0 "C42" "hello" eq_refl)).
Defined.

(** ** Language selection *)

Lemma split_underscore_0_prefix (s : string) :
  exists rest,
    s = (split_underscore_0 s ++ rest)%string
    /\ (rest = EmptyString \/ exists r, rest = String underscore r).
Proof.
  induction s as [| c s (rest & IH & Hrest)]; cbn.
  - exists EmptyString. split; [reflexivity | now left].
  - destruct (Ascii.eqb_spec c "_"%char) as [-> | Hc]; cbn.
    + exists (String underscore s). split; [reflexivity | right].
      now exists s.
    + exists rest. split; [now rewrite <- IH | exact Hrest].
Qed.

Lemma split_underscore_0_clean (s : string) :
  ~ In underscore (list_ascii_of_string (split_underscore_0 s)).
Proof.
  induction s as [| c s IH]; cbn; [tauto | ].
  destruct (Ascii.eqb_spec c "_"%char) as [-> | Hc]; cbn; [tauto | ].
  intros [H | H]; [now apply Hc | now apply IH].
Qed.

(** X6: [split("_")[0]] as the language selection uses it returns the text
    before the first underscore: the input is the result followed by nothing
    or by an underscore and the rest, the result holds no underscore, and a
    text without underscore is returned whole. *)
Theorem split_underscore_0_spec (s : string) :
  (exists rest,
      s = (split_underscore_0 s ++ rest)%string
      /\ (rest = EmptyString \/ exists r, rest = String underscore r))
  /\ ~ In underscore (list_ascii_of_string (split_underscore_0 s))
  /\ (~ In underscore (list_ascii_of_string s) -> split_underscore_0 s = s)
  /\ split_underscore_0 (split_underscore_0 s) = split_underscore_0 s.
Proof.
  assert (Hwhole : forall t,
             ~ In underscore (list_ascii_of_string t) ->
             split_underscore_0 t = t).
  { induction t as [| c t IH]; cbn; [reflexivity | ].
    intros H. destruct (Ascii.eqb_spec c "_"%char) as [-> | Hc].
    - exfalso. apply H. now left.
    - f_equal. apply IH. intros Hin. apply H. now right. }
  split; [apply split_underscore_0_prefix | ].
  split; [apply split_underscore_0_clean | ].
  split; [apply Hwhole | ].
  apply Hwhole, split_underscore_0_clean.
Qed.

Lemma split_underscore_0_spec_witness :
  split_underscore_0 "en" = "en" /\ split_underscore_0 "pt_BR" = "pt".
Proof.
  split; [ | reflexivity].
  apply (proj1 (proj2 (proj2 (split_underscore_0_spec "en")))).
  cbn. intros [H | [H | []]]; discriminate H.
Defined.

(** X7: [set_language] changes the two translators and nothing else.  The
    language is the one of the settings store when that is a non-empty
    string and the text before the first underscore of the system locale
    otherwise.  When the widget's translation file of that language exists,
    both translators load the files of that one language; when it does not,
    both are emptied, whatever they held before; running it again changes
    nothing. *)
Theorem set_language_spec (env : Env) (w : World) :
  let w' := exec (set_language env) w in
  fst (set_language env w) = Ok tt
  /\ self w' = self w /\ effects w' = effects w /\ calls w' = calls w
  /\ next_id w' = next_id w /\ awaiting_connect w' = awaiting_connect w
  /\ observed w' = observed w
  /\ (exists language,
         ((exists c rest, settings_language env = Some (String c rest)
                          /\ language = String c rest)
          \/ ((settings_language env = None
               \/ settings_language env = Some EmptyString)
              /\ language = split_underscore_0 (system_locale env)))
         /\ let lang_file := ("qhangups_" ++ language ++ ".qm")%string in
            if isfile env lang_file then
              translators w'
              = mkTranslators lang_file ("qt_" ++ language ++ ".qm")%string
            else translators w' = mkTranslators "" "")
  /\ exec (set_language env) w' = w'.
Proof.
  intros w'. subst w'. unfold exec, set_language, set_translators.
  destruct (settings_language env) as [[| c rest] | ] eqn:Hs;
    match goal with
    | |- context [isfile env ?f] => destruct (isfile env f) eqn:Hf
    end; cbn [fst snd self effects calls next_id awaiting_connect observed
              translators];
    (do 7 (split; [reflexivity | ])); (split; [ | now rewrite ?Hf]).
  all: eexists; (split;
         [ first [ left; do 2 eexists; split; reflexivity
                 | right; split; [tauto | reflexivity] ]
         | cbv zeta; rewrite Hf; reflexivity ]).
Qed.

(** ** More of the tray gesture *)

(** X8: two expiries of the double-click timer in a row restore the
    conversations dialog: [icon_doubleclick_timeout] run twice leaves the
    widget and the effects as they were, having entered its slot twice. *)
Theorem icon_doubleclick_timeout_twice (w : World) :
  let w2 := exec icon_doubleclick_timeout (exec icon_doubleclick_timeout w) in
  self w2 = self w
  /\ effects w2 = effects w
  /\ calls w2
     = calls w ++ [Sicon_doubleclick_timeout; Sicon_doubleclick_timeout].
Proof.
  intros w2. subst w2. unfold exec.
  rewrite (icon_doubleclick_timeout_spec w). cbn [snd].
  rewrite icon_doubleclick_timeout_spec. cbn [snd self effects calls].
  split; [ | split; [reflexivity | now rewrite <- app_assoc]].
  destruct w as [s e c n a o t]. destruct s as [? ? ? ? ? ? cd ? ? ? ? ?].
  cbn. destruct cd as [[cc cl [|]] | ]; reflexivity.
Qed.

(** X9: two [Trigger] activations further apart than the double-click
    interval are two single clicks: the timer of the first expires before
    the second arrives, so the conversations dialog is toggled once, the
    connection is not toggled, and the second activation arms the timer
    anew for its own interval. *)
Theorem slow_clicks_do_not_toggle_connection (env1 env2 : Env) (t1 t2 : Z)
    (w : World) :
  icon_doubleclick_timer (self w) = None ->
  (t1 + doubleClickInterval env1 < t2)%Z ->
  let w2 := deliver env2 t2 (IconActivated Trigger)
              (deliver env1 t1 (IconActivated Trigger) w) in
  w2 = arm (t2 + doubleClickInterval env2) (exec icon_doubleclick_timeout w)
  /\ calls w2 = calls w ++ [Sicon_doubleclick_timeout]
  /\ effects w2 = effects w
  /\ hangups_running (self w2) = hangups_running (self w)
  /\ client (self w2) = client (self w)
  /\ conversations_dialog (self w2)
     = toggle_visibility (conversations_dialog (self w))
  /\ icon_doubleclick_timer (self w2)
     = Some (t2 + doubleClickInterval env2)%Z.
Proof.
  intros Hidle Ht w2.
  assert (E1 : deliver env1 t1 (IconActivated Trigger) w
               = arm (t1 + doubleClickInterval env1) w).
  { unfold deliver, dispatch, exec.
    rewrite (fire_timer_idle t1 w Hidle).
    now rewrite (icon_activated_idle env1 t1 w Hidle). }
  assert (E2 : w2 = arm (t2 + doubleClickInterval env2)
                        (exec icon_doubleclick_timeout w)).
  { subst w2. rewrite E1. unfold deliver.
    rewrite (fire_timer_due t2 (t1 + doubleClickInterval env1));
      [ | reflexivity | lia].
    rewrite (arm_disarm _ w Hidle). unfold dispatch, exec.
    rewrite icon_doubleclick_timeout_spec. cbn [snd].
    now rewrite icon_activated_idle. }
  split; [exact E2 | ].
  rewrite E2. unfold exec. rewrite icon_doubleclick_timeout_spec.
  repeat split.
Qed.

Lemma slow_clicks_do_not_toggle_connection_witness :
  calls (run [(alice, 100%Z, IconActivated Trigger);
              (alice, 900%Z, IconActivated Trigger)] connected_world)
  = calls connected_world ++ [Sicon_doubleclick_timeout].
Proof.
  assert (Ht : (100 + doubleClickInterval alice < 900)%Z) by (cbn; lia).
  exact (proj1 (proj2 (slow_clicks_do_not_toggle_connection alice alice
                         100 900 connected_world eq_refl Ht))).
Defined.

(** X10: a third [Trigger] activation after a double click starts a new
    gesture: the double click has toggled the connection once and stopped
    the timer, and the third activation, whenever it arrives, only arms the
    timer for its own interval. *)
Theorem third_click_rearms (env1 env2 env3 : Env) (t1 t2 t3 : Z)
    (w : World) :
  icon_doubleclick_timer (self w) = None ->
  (t1 <= t2 < t1 + doubleClickInterval env1)%Z ->
  let w3 := run [(env1, t1, IconActivated Trigger);
                 (env2, t2, IconActivated Trigger);
                 (env3, t3, IconActivated Trigger)] w in
  w3 = arm (t3 + doubleClickInterval env3)
           (exec (toggle_connection env2 w) w)
  /\ calls w3 = calls w ++ [toggle_slot w]
  /\ icon_doubleclick_timer (self w3)
     = Some (t3 + doubleClickInterval env3)%Z.
Proof.
  intros Hidle Ht w3.
  assert (E1 : deliver env1 t1 (IconActivated Trigger) w
               = arm (t1 + doubleClickInterval env1) w).
  { unfold deliver, dispatch, exec.
    rewrite (fire_timer_idle t1 w Hidle).
    now rewrite (icon_activated_idle env1 t1 w Hidle). }
  assert (E2 : deliver env2 t2 (IconActivated Trigger)
                 (arm (t1 + doubleClickInterval env1) w)
               = exec (toggle_connection env2 w) w).
  { unfold deliver, dispatch.
    rewrite (fire_timer_early t2 (t1 + doubleClickInterval env1));
      [ | reflexivity | lia].
    unfold exec at 1.
    rewrite (icon_activated_armed env2 t2 (t1 + doubleClickInterval env1));
      [ | reflexivity].
    now rewrite (arm_disarm _ w Hidle). }
  destruct (toggle_connection_calls env2 w) as (Hcalls & Htimer).
  rewrite Hidle in Htimer.
  assert (E3 : w3 = arm (t3 + doubleClickInterval env3)
                        (exec (toggle_connection env2 w) w)).
  { subst w3. cbn [run]. rewrite E1, E2. unfold deliver.
    rewrite (fire_timer_idle t3 _ Htimer). unfold dispatch, exec at 1.
    now rewrite (icon_activated_idle env3 t3 _ Htimer). }
  split; [exact E3 | ]. rewrite E3. cbn [arm calls self].
  split; [exact Hcalls | reflexivity].
Qed.

Lemma third_click_rearms_witness :
  icon_doubleclick_timer
    (self (run [(alice, 100%Z, IconActivated Trigger);
                (alice, 300%Z, IconActivated Trigger);
                (alice, 350%Z, IconActivated Trigger)] connected_world))
  = Some 750%Z.
Proof.
  assert (Ht : (100 <= 300 < 100 + doubleClickInterval alice)%Z)
    by (cbn; lia).
  exact (proj2 (proj2 (third_click_rearms alice alice alice 100 300 350
                         connected_world eq_refl Ht))).
Defined.

(** ** The message view *)

Lemma open_messages_dialog_first (w : World) (conv_id : ConvId)
    (switch : bool) :
  messages_dialog (self w) = None ->
  open_messages_dialog conv_id switch w
  = (Ok tt,
     mkWorld (set_messages_dialog
                (Some (md_show
                         (set_conv_tab conv_id switch
                            (mkMessagesDialog (next_id w) (client (self w))
                               (conv_list (self w)) [] None false))))
                (self w))
             (effects w ++ [NewMessagesDialog (next_id w)]) (calls w)
             (S (next_id w)) (awaiting_connect w) (observed w)
             (translators w)).
Proof.
  intros H.
  unfold open_messages_dialog, ensure_messages_dialog, on_messages_dialog,
    bind, get_self, fresh, emit, modify_self.
  cbn. rewrite H. cbn. reflexivity.
Qed.

Lemma open_messages_dialog_again (w : World) (d : MessagesDialog)
    (conv_id : ConvId) (switch : bool) :
  messages_dialog (self w) = Some d ->
  open_messages_dialog conv_id switch w
  = (Ok tt,
     mkWorld (set_messages_dialog
                (Some (md_show (set_conv_tab conv_id switch d))) (self w))
             (effects w) (calls w) (next_id w) (awaiting_connect w)
             (observed w) (translators w)).
Proof.
  intros H.
  unfold open_messages_dialog, ensure_messages_dialog, on_messages_dialog,
    bind, get_self, modify_self, ret.
  cbn. rewrite H. cbn. rewrite H. cbn. reflexivity.
Qed.

(** X11: [open_messages_dialog] never raises and always leaves a visible
    message view that has the tab of the conversation.  A view that exists
    is reused: it keeps its identity, the client and conversation list it
    was built with and every tab it had, and nothing is allocated.  When
    there is none, exactly one is created, on the client and conversation
    list the widget holds at that moment. *)
Theorem open_messages_dialog_lazy (conv_id : ConvId) (switch : bool)
    (w : World) :
  let w' := exec (open_messages_dialog conv_id switch) w in
  fst (open_messages_dialog conv_id switch w) = Ok tt
  /\ exists d',
      messages_dialog (self w') = Some d'
      /\ md_visible d' = true
      /\ In conv_id (md_tabs d')
      /\ match messages_dialog (self w) with
         | Some d =>
             md_id d' = md_id d
             /\ md_client d' = md_client d
             /\ md_conv_list d' = md_conv_list d
             /\ (forall c, In c (md_tabs d) -> In c (md_tabs d'))
             /\ effects w' = effects w
             /\ next_id w' = next_id w
         | None =>
             md_id d' = next_id w
             /\ md_client d' = client (self w)
             /\ md_conv_list d' = conv_list (self w)
             /\ md_tabs d' = [conv_id]
             /\ effects w' = effects w ++ [NewMessagesDialog (next_id w)]
             /\ next_id w' = S (next_id w)
         end.
Proof.
  intros w'. subst w'. unfold exec.
  destruct (messages_dialog (self w)) as [d | ] eqn:Hd.
  - rewrite (open_messages_dialog_again w d conv_id switch Hd).
    split; [reflexivity | ].
    exists (md_show (set_conv_tab conv_id switch d)).
    split; [reflexivity | split; [reflexivity | ]].
    split; [exact (set_conv_tab_has conv_id switch d) | ].
    repeat split.
    intros c Hc. exact (set_conv_tab_keeps conv_id c switch d Hc).
  - rewrite (open_messages_dialog_first w conv_id switch Hd).
    split; [reflexivity | ]. eexists. split; [reflexivity | ].
    repeat split. cbn. now left.
Qed.

(** ** Login *)

(** X12: [login] only shows dialogs and leaves the rest of the world alone.
    It shows the warning exactly when it returns [False], which is when the
    authentication error was raised; it never lets that error escape, and
    the one exception it lets through is the cancel signal.  (The
    authentication itself is the collaborator's, modelled as a two-step
    challenge.) *)
Theorem login_warns_iff_false (env : Env) (path : string) (w : World) :
  exists l,
    snd (login env path w) = add_effects l w
    /\ forallb (fun e => is_input_dialog e || is_warning e) l = true
    /\ existsb is_warning l
       = match fst (login env path w) with
         | Ok None => true
         | _ => false
         end
    /\ fst (login env path w) <> Raise GoogleAuthError
    /\ (forall e, fst (login env path w) = Raise e -> e = AuthAbort).
Proof.
  login_cases env; unfold add_effects; cbn; rewrite <- ?app_assoc; cbn;
    eexists; (split; [reflexivity | ]);
    (split; [reflexivity | ]); (split; [reflexivity | ]);
    (split; [discriminate | ]); intros e H; try discriminate H;
    now injection H.
Qed.

(** ** The session invariant without late callbacks *)

(** X13: along every run in which no connect callback arrives for a client
    other than the one in [self.client], the four session handles are all
    present while Connected, all absent while Disconnected, and the client
    alone is present while Connecting. *)
Theorem session_invariant_without_late_callbacks (env : Env)
    (cookies : string) (l : list (Env * Z * Input)) :
  timely l (init_world env cookies) = true ->
  let s := self (run l (init_world env cookies)) in
  match status s with
  | Connected =>
      present (client s) = true /\ present (conv_list s) = true
      /\ present (user_list s) = true /\ present (notifier s) = true
  | Connecting =>
      present (client s) = true /\ present (conv_list s) = false
      /\ present (user_list s) = false /\ present (notifier s) = false
  | Disconnected =>
      present (client s) = false /\ present (conv_list s) = false
      /\ present (user_list s) = false /\ present (notifier s) = false
  end.
Proof.
  intros Ht s.
  pose proof (run_consistent l _ Ht (init_consistent env cookies))
    as (H & _).
  fold s in H. unfold session_invariant in H.
  destruct (status s), (client s), (conv_list s), (user_list s),
    (notifier s); cbn in *; try discriminate; repeat split.
Qed.

Lemma session_invariant_without_late_callbacks_witness :
  timely [(alice, 0%Z, StartAction);
          (alice, 50%Z, ConnectCallback 0 snapshot0)]
         (init_world alice "cookies.json") = true
  /\ let s := self (run [(alice, 0%Z, StartAction);
                         (alice, 50%Z, ConnectCallback 0 snapshot0)]
                        (init_world alice "cookies.json")) in
     match status s with
     | Connected =>
         present (client s) = true /\ present (conv_list s) = true
         /\ present (user_list s) = true /\ present (notifier s) = true
     | Connecting =>
         present (client s) = true /\ present (conv_list s) = false
         /\ present (user_list s) = false /\ present (notifier s) = false
     | Disconnected =>
         present (client s) = false /\ present (conv_list s) = false
         /\ present (user_list s) = false /\ present (notifier s) = false
     end.
Proof.
  assert (Ht : timely [(alice, 0%Z, StartAction);
                       (alice, 50%Z, ConnectCallback 0 snapshot0)]
                      (init_world alice "cookies.json") = true)
    by (vm_compute; reflexivity).
  split; [exact Ht | ].
  exact (session_invariant_without_late_callbacks alice "cookies.json" _ Ht).
Defined.

(** ** Events after a stop *)



(** ** The session invariant and the teardown in every reachable world *)

Lemma reachable_consistent (w : World) : reachable w -> consistent (self w).
Proof.
  intros (env & cookies & l & ->).
  apply run_consistent_any. apply init_consistent.
Qed.

(** C3: in every reachable world the four session handles (client,
    conversation collection, user collection, notifier) are all present
    while the session is Connected, all absent while it is Disconnected,
    and while it is Connecting the client handle alone is present. *)
Theorem reachable_session_invariant (w : World) :
  reachable w ->
  let s := self w in
  match status s with
  | Connected =>
      present (client s) = true /\ present (conv_list s) = true
      /\ present (user_list s) = true /\ present (notifier s) = true
  | Connecting =>
      present (client s) = true /\ present (conv_list s) = false
      /\ present (user_list s) = false /\ present (notifier s) = false
  | Disconnected =>
      present (client s) = false /\ present (conv_list s) = false
      /\ present (user_list s) = false /\ present (notifier s) = false
  end.
Proof.
  intros Hr s. pose proof (reachable_consistent w Hr) as (H & _).
  fold s in H. unfold session_invariant in H.
  destruct (status s), (client s), (conv_list s), (user_list s),
    (notifier s); cbn in *; try discriminate; repeat split.
Qed.

Lemma reachable_session_invariant_witness :
  reachable late_callback_world
  /\ let s := self late_callback_world in
     match status s with
     | Connected =>
         present (client s) = true /\ present (conv_list s) = true
         /\ present (user_list s) = true /\ present (notifier s) = true
     | Connecting =>
         present (client s) = true /\ present (conv_list s) = false
         /\ present (user_list s) = false /\ present (notifier s) = false
     | Disconnected =>
         present (client s) = false /\ present (conv_list s) = false
         /\ present (user_list s) = false /\ present (notifier s) = false
     end.
Proof.
  assert (Hr : reachable late_callback_world).
  { exists alice, "cookies.json".
    exists [(alice, 0%Z, StartAction); (alice, 10%Z, StopAction);
            (alice, 50%Z, ConnectCallback 0 snapshot0)].
    reflexivity. }
  split; [exact Hr | ].
  exact (reachable_session_invariant late_callback_world Hr).
Defined.









